(** * leaflet.offline: the save-tiles control ([src/ControlSaveTiles.ts])

    A shallow embedding of the class [ControlSaveTiles]: its status record,
    the synchronous bodies of its methods, and the promise reactions they
    register, run by a scheduler that is driven by what the surroundings do
    (clicks, confirmation hooks calling back, promises settling). *)

From stdpp Require Import base numbers list strings sorting.

Local Open Scope Z_scope.

(** ** Collaborators *)

Module TileManager.

(** Modelled from the spec: the type [TileInfo] is declared in
    TileManager.ts, which is not among the sources; the spec's
    TileDescriptor lists its fields.  The control itself reads [url] only. *)
Record TileInfo := { url : string; key : string; x : Z; y : Z; z : Z }.

(** The bytes of a downloaded tile. *)
Definition Blob := list Byte.byte.

End TileManager.

Module Leaflet.

(** What the control uses of Leaflet's geometry: [LatLngBounds] with its
    corner getters, and the factory [bounds] of a pixel rectangle. *)
Class Geometry := {
  LatLng : Type;
  LatLngBounds : Type;
  Point : Type;
  Bounds : Type;
  getNorthWest : LatLngBounds -> LatLng;
  getSouthEast : LatLngBounds -> LatLng;
  bounds : Point -> Point -> Bounds
}.

(** The map the control is added to ([this._map]). *)
Record Map `{Geometry} := {
  getZoom : Z;
  getBounds : LatLngBounds;
  project : LatLng -> Z -> Point
}.

End Leaflet.

(** The layer whose tiles are saved ([this._baseLayer]); [fire] is an effect
    of the control, see [effect] below. *)
Record TileLayerOffline `{Leaflet.Geometry} := {
  getTileUrls : Leaflet.Bounds -> Z -> list TileManager.TileInfo
}.

(** ** The control and the runtime around it *)

(** A JavaScript array is an object: [tiles] in [_saveTiles] and
    [status._tilesforSave] are one array, shifted by the loaders.  Arrays live
    in a heap and are named by their address. *)
Abbreviation ref := nat.

Record SaveStatus := {
  _tilesforSave : ref;
  storagesize : Z;
  lengthToBeSaved : Z;
  lengthSaved : Z;
  lengthLoaded : Z
}.

Inductive completion := Returned | Thrown (message : string).

(** The result of [setStorageSize]: a promise already resolved, or one that
    settles when [getStorageLength] does. *)
Inductive promise (A : Type) := resolved (a : A) | awaiting.
Arguments resolved {A} a.
Arguments awaiting {A}.

(** What the control does to the outside: events fired on the base layer,
    calls of TileManager's functions, calls of the configured hooks. *)
Inductive effect :=
| fire (type : string) (data : option SaveStatus)
| downloadTile (url : string)
| saveTile (tile : TileManager.TileInfo) (blob : TileManager.Blob)
| getStorageLength
| truncate
| call_confirm (status : SaveStatus)
| call_confirmRemoval (status : SaveStatus).

(** A reaction waiting to run: a pending promise with what is chained on it,
    or a callback handed to a hook. *)
Inductive task :=
| Downloading (tiles : ref) (tile : TileManager.TileInfo)
    (* _loadTile(tile) awaits downloadTile(tile.url); .then(loader) is chained *)
| Looping (tiles : ref)
    (* _loadTile(tile) is fulfilled: loader is queued *)
| Saving (tile : TileManager.TileInfo) (blob : TileManager.Blob)
    (* _saveTile awaits saveTile(tile, blob) *)
| Counting
    (* setStorageSize awaits getStorageLength() *)
| Truncating
    (* _rmTiles awaits truncate() *)
| ConfirmingSave (tiles : ref)
    (* options.confirm holds successCallback of _saveTiles *)
| ConfirmingRemoval.
    (* options.confirmRemoval holds successCallback of _rmTiles *)

(** What a promise is fulfilled with. *)
Inductive value :=
| VBlob (blob : TileManager.Blob)
| VNumber (n : Z)
| VVoid.

(** What the surroundings do. *)
Inductive label :=
| ClickSave                       (* the save button: _saveTiles() *)
| ClickRemove                     (* the remove button: _rmTiles() *)
| CallSetStorageSize              (* a caller of the public setStorageSize() *)
| ProceedSave (i : nat)           (* options.confirm calls the callback of task i *)
| ProceedRemoval (i : nat)        (* options.confirmRemoval calls the callback of task i *)
| Microtask (i : nat)             (* the queued reaction i runs *)
| Fulfil (i : nat) (v : value)    (* the promise of task i is fulfilled with v *)
| Reject (i : nat).               (* the promise of task i is rejected *)

Section Orchestrator.

Context `{G : Leaflet.Geometry}.

(** The options the model reads; [position], [saveText] and [rmText] only
    shape the buttons. [confirm] and [confirmRemoval] say whether a function is
    configured: its body belongs to the caller. *)
Record SaveTileOptions := {
  maxZoom : Z;
  saveWhatYouSee : bool;
  bounds : option Leaflet.LatLngBounds;
  confirm : bool;
  confirmRemoval : bool;
  parallel : Z;
  zoomlevels : option (list Z)
}.

(** The object, with the heap of arrays and the reactions waiting to run. *)
Record Control := {
  _map : Leaflet.Map;
  _baseLayer : TileLayerOffline;
  options : SaveTileOptions;
  status : SaveStatus;
  heap : list (list TileManager.TileInfo);
  pending : list task
}.

Definition with_status (s : SaveStatus) (c : Control) : Control :=
  {| _map := _map c; _baseLayer := _baseLayer c; options := options c;
     status := s; heap := heap c; pending := pending c |}.

Definition with_heap (h : list (list TileManager.TileInfo)) (c : Control) : Control :=
  {| _map := _map c; _baseLayer := _baseLayer c; options := options c;
     status := status c; heap := h; pending := pending c |}.

Definition with_pending (p : list task) (c : Control) : Control :=
  {| _map := _map c; _baseLayer := _baseLayer c; options := options c;
     status := status c; heap := heap c; pending := p |}.

(** The elements of the array at [r]. *)
Definition deref (c : Control) (r : ref) : list TileManager.TileInfo :=
  default [] (heap c !! r).

(** *** Method bodies: state passing with the effects written out *)

Definition M (A : Type) : Type := Control -> A * Control * list effect.

#[export] Instance M_ret : MRet M := fun A a c => (a, c, []).

#[export] Instance M_bind : MBind M := fun A B k m c =>
  let '(a, c1, e1) := m c in
  let '(b, c2, e2) := k a c1 in
  (b, c2, e1 ++ e2).

Definition this : M Control := fun c => (c, c, []).
Definition perform (e : effect) : M unit := fun c => (tt, c, [e]).
Definition spawn (t : task) : M unit :=
  fun c => (tt, with_pending (pending c ++ [t]) c, []).
Definition set_status (s : SaveStatus) : M unit :=
  fun c => (tt, with_status s c, []).

(** [new_array l]: a fresh array with the elements [l]. *)
Definition new_array (l : list TileManager.TileInfo) : M ref :=
  fun c => (length (heap c), with_heap (heap c ++ [l]) c, []).

(** [tiles.shift()]: [None] stands for [undefined]. *)
Definition shift (tiles : ref) : M (option TileManager.TileInfo) := fun c =>
  match deref c tiles with
  | [] => (None, c, [])
  | tile :: rest => (Some tile, with_heap (<[tiles := rest]> (heap c)) c, [])
  end.

(** [this._baseLayer.fire(type, this.status)]: the listeners see the record
    as it is when the event fires. *)
Definition fire_status (type : string) : M unit :=
  c ← this; perform (fire type (Some (status c))).

(** [for (let i = 0; i < n; i += 1) body] for a body that does not read [i]. *)
Fixpoint times (n : nat) (body : M unit) : M unit :=
  match n with
  | O => mret tt
  | S n => body;; times n body
  end.

Definition setStorageSize : M (promise Z) :=
  c ← this;
  if bool_decide (storagesize (status c) ≠ 0)
  then mret (resolved (storagesize (status c)))
  else perform getStorageLength;; spawn Counting;; mret awaiting.

(** The reactions chained on [getStorageLength()] in [setStorageSize]:
    [.then(numberOfKeys => ...)] on [Some numberOfKeys], [.catch(() => 0)]
    on a rejection. The result is what the promise of [setStorageSize]
    resolves to. *)
Definition setStorageSize_settled (outcome : option Z) : M Z :=
  match outcome with
  | Some numberOfKeys =>
      c ← this;
      set_status {| _tilesforSave := _tilesforSave (status c);
                    storagesize := numberOfKeys;
                    lengthToBeSaved := lengthToBeSaved (status c);
                    lengthSaved := lengthSaved (status c);
                    lengthLoaded := lengthLoaded (status c) |};;
      fire_status "storagesize";;
      mret numberOfKeys
  | None => mret 0
  end.

Definition _resetStatus (tiles : ref) : M unit :=
  c ← this;
  set_status {| lengthLoaded := 0;
                lengthToBeSaved := Z.of_nat (length (deref c tiles));
                lengthSaved := 0;
                _tilesforSave := tiles;
                storagesize := storagesize (status c) |}.

Definition _saveTile (tile : TileManager.TileInfo) (blob : TileManager.Blob) : M unit :=
  perform (saveTile tile blob);; spawn (Saving tile blob).

(** The reaction [.then(() => ...)] on [saveTile(tile, blob)]. *)
Definition _saveTile_then : M unit :=
  c ← this;
  set_status {| _tilesforSave := _tilesforSave (status c);
                storagesize := storagesize (status c);
                lengthToBeSaved := lengthToBeSaved (status c);
                lengthSaved := lengthSaved (status c) + 1;
                lengthLoaded := lengthLoaded (status c) |};;
  fire_status "savetileend";;
  c ← this;
  if bool_decide (lengthSaved (status c) = lengthToBeSaved (status c))
  then fire_status "saveend";; _ ← setStorageSize; mret tt
  else mret tt.

(** [_loadTile(tile)] up to its [await]; [tiles] is the array of the loader
    that chains itself on the result. *)
Definition _loadTile (tiles : ref) (tile : TileManager.TileInfo) : M unit :=
  perform (downloadTile (TileManager.url tile));; spawn (Downloading tiles tile).

(** The reaction [.then((blob) => ...)] on [downloadTile(tile.url)], and the
    loader queued when [_loadTile] is fulfilled after it. *)
Definition _loadTile_then (tiles : ref) (tile : TileManager.TileInfo)
    (blob : TileManager.Blob) : M unit :=
  c ← this;
  set_status {| _tilesforSave := _tilesforSave (status c);
                storagesize := storagesize (status c);
                lengthToBeSaved := lengthToBeSaved (status c);
                lengthSaved := lengthSaved (status c);
                lengthLoaded := lengthLoaded (status c) + 1 |};;
  _saveTile tile blob;;
  fire_status "loadtileend";;
  c ← this;
  (if bool_decide (lengthLoaded (status c) = lengthToBeSaved (status c))
   then fire_status "loadend" else mret tt);;
  spawn (Looping tiles).

(** [loader] of [_saveTiles], closed over the array [tiles]. *)
Definition loader (tiles : ref) : M unit :=
  tile ← shift tiles;
  match tile with
  | None => mret tt
  | Some tile => _loadTile tiles tile
  end.

(** [successCallback] of [_saveTiles]. *)
Definition successCallback (tiles : ref) : M unit :=
  fire_status "savestart";;
  c ← this;
  let parallel := Z.min (Z.of_nat (length (deref c tiles))) (parallel (options c)) in
  times (Z.to_nat parallel) (loader tiles).

(** [for (let zoom = currentZoom; zoom <= maxZoom; zoom += 1) zoomlevels.push(zoom)] *)
Definition zoomRange (currentZoom maxZoom : Z) : list Z :=
  (fun i : nat => currentZoom + Z.of_nat i) <$> seq 0 (Z.to_nat (maxZoom - currentZoom + 1)).

(** The zoom levels of a save request (lines 135-152 of [_saveTiles]), or the
    message of the error thrown. *)
Definition requestedZoomlevels (c : Control) : string + list Z :=
  let minZoom := 5 in
  if saveWhatYouSee (options c) then
    let currentZoom := Leaflet.getZoom (_map c) in
    if bool_decide (currentZoom < minZoom)
    then inl "It's not possible to save with zoom below level 5."%string
    else inr (zoomRange currentZoom (maxZoom (options c)))
  else
    inr (default [Leaflet.getZoom (_map c)] (zoomlevels (options c))).

(** The tiles of one zoom level (the body of the loop at lines 156-162). *)
Definition tilesAt (c : Control) (latlngBounds : Leaflet.LatLngBounds) (zoom : Z)
    : list TileManager.TileInfo :=
  let area :=
    Leaflet.bounds
      (Leaflet.project (_map c) (Leaflet.getNorthWest latlngBounds) zoom)
      (Leaflet.project (_map c) (Leaflet.getSouthEast latlngBounds) zoom) in
  getTileUrls (_baseLayer c) area zoom.

(** The loop at lines 156-162: [tiles = tiles.concat(...)] for each index. *)
Definition collectTiles (c : Control) (zoomlevels : list Z) : list TileManager.TileInfo :=
  let latlngBounds := default (Leaflet.getBounds (_map c)) (bounds (options c)) in
  foldl (fun tiles zoom => tiles ++ tilesAt c latlngBounds zoom) [] zoomlevels.

(** Lines 178-182 of [_saveTiles]. *)
Definition _saveTiles_confirm (tiles : ref) : M unit :=
  c ← this;
  if confirm (options c)
  then perform (call_confirm (status c));; spawn (ConfirmingSave tiles)
  else successCallback tiles.

(** Lines 134-163 of [_saveTiles]: the work list is built and the status
    reset; the result is the array [tiles]. Nothing is changed when the zoom
    check throws. *)
Definition _saveTiles_reset : M (string + ref) :=
  c ← this;
  match requestedZoomlevels c with
  | inl message => mret (inl message)
  | inr zoomlevels =>
      tiles ← new_array (collectTiles c zoomlevels);
      _resetStatus tiles;;
      mret (inr tiles)
  end.

Definition _saveTiles : M completion :=
  r ← _saveTiles_reset;
  match r with
  | inl message => mret (Thrown message)
  | inr tiles => _saveTiles_confirm tiles;; mret Returned
  end.

(** [successCallback] of [_rmTiles], and the reaction chained on [truncate()]. *)
Definition rm_successCallback : M unit :=
  perform truncate;; spawn Truncating.

Definition truncate_then : M unit :=
  c ← this;
  set_status {| _tilesforSave := _tilesforSave (status c);
                storagesize := 0;
                lengthToBeSaved := lengthToBeSaved (status c);
                lengthSaved := lengthSaved (status c);
                lengthLoaded := lengthLoaded (status c) |};;
  perform (fire "tilesremoved" None);;
  fire_status "storagesize".

Definition _rmTiles : M unit :=
  c ← this;
  if confirmRemoval (options c)
  then perform (call_confirmRemoval (status c));; spawn ConfirmingRemoval
  else rm_successCallback.

(** The constructor: the status of the field initialiser, then
    [this.setStorageSize()]. *)
Definition constructor (map : Leaflet.Map) (baseLayer : TileLayerOffline)
    (opts : SaveTileOptions) : Control * list effect :=
  let c := {| _map := map; _baseLayer := baseLayer; options := opts;
              status := {| storagesize := 0; lengthToBeSaved := 0; lengthSaved := 0;
                           lengthLoaded := 0; _tilesforSave := 0%nat |};
              heap := [[]]; pending := [] |} in
  let '(_, c, e) := setStorageSize c in (c, e).

(** *** The scheduler *)

(** Task [i] leaves the list of waiting reactions. *)
Definition settle (i : nat) : M unit :=
  fun c => (tt, with_pending (delete i (pending c)) c, []).

Definition discard {A} (m : M A) : M unit := _ ← m; mret tt.

(** One step of the surroundings; [None] when the label does not fit the
    task it names. *)
Definition step (l : label) (c : Control) : option (Control * list effect) :=
  let go (m : M unit) := let '(_, c', e) := m c in Some (c', e) in
  match l with
  | ClickSave => go (discard _saveTiles)
  | ClickRemove => go _rmTiles
  | CallSetStorageSize => go (discard setStorageSize)
  | ProceedSave i =>
      match pending c !! i with
      | Some (ConfirmingSave tiles) => go (successCallback tiles)
      | _ => None
      end
  | ProceedRemoval i =>
      match pending c !! i with
      | Some ConfirmingRemoval => go rm_successCallback
      | _ => None
      end
  | Microtask i =>
      match pending c !! i with
      | Some (Looping tiles) => go (settle i;; loader tiles)
      | _ => None
      end
  | Fulfil i v =>
      match pending c !! i, v with
      | Some (Downloading tiles tile), VBlob blob =>
          go (settle i;; _loadTile_then tiles tile blob)
      | Some (Saving _ _), VVoid => go (settle i;; _saveTile_then)
      | Some Counting, VNumber n => go (settle i;; discard (setStorageSize_settled (Some n)))
      | Some Truncating, VVoid => go (settle i;; truncate_then)
      | _, _ => None
      end
  | Reject i =>
      match pending c !! i with
      | Some (Downloading _ _) => go (settle i)
      | Some (Saving _ _) => go (settle i)
      | Some Counting => go (settle i;; discard (setStorageSize_settled None))
      | Some Truncating => go (settle i)
      | _ => None
      end
  end.

(** A session: the labels in the order they happen, with all the effects. *)
Fixpoint run (ls : list label) (c : Control) : option (Control * list effect) :=
  match ls with
  | [] => Some (c, [])
  | l :: ls =>
      match step l c with
      | None => None
      | Some (c1, e1) =>
          match run ls c1 with
          | None => None
          | Some (c2, e2) => Some (c2, e1 ++ e2)
          end
      end
  end.

(** *** Observations *)

Definition is_Downloading (t : task) : bool :=
  match t with Downloading _ _ => true | _ => false end.

Definition is_Saving (t : task) : bool :=
  match t with Saving _ _ => true | _ => false end.

(** How many of the waiting reactions satisfy [f]. *)
Definition inflight (f : task -> bool) (p : list task) : Z :=
  Z.of_nat (length (List.filter f p)).

(** The downloads and the loops are those of the loaders of array [r]. *)
Definition of_run (r : ref) (t : task) : Prop :=
  match t with
  | Downloading r' _ | Looping r' => r' = r
  | _ => True
  end.

(** Neither downloading nor saving nor about to claim a tile. *)
Definition waiting (t : task) : bool :=
  match t with
  | Downloading _ _ | Looping _ | Saving _ _ => false
  | _ => true
  end.

(** No download, no save and no loader loop is under way. The callbacks
    kept for a confirmation hook are no part of this: they stay for good. *)
Definition settled (c : Control) : Prop := forallb waiting (pending c) = true.

(** The step is no call of a confirmation callback other than the one of
    array [r], and so is every step of a session. *)
Definition own_callback (r : ref) (l : label) (c : Control) : bool :=
  match l with
  | ProceedSave i =>
      match pending c !! i with
      | Some (ConfirmingSave tiles) => Nat.eqb tiles r
      | _ => true
      end
  | _ => true
  end.

Fixpoint own_callbacks (r : ref) (ls : list label) (c : Control) : bool :=
  match ls with
  | [] => true
  | l :: ls =>
      own_callback r l c &&
      match step l c with
      | Some (c', _) => own_callbacks r ls c'
      | None => true
      end
  end.

(** The step is the fulfilment of a download, or of a save. *)
Definition download_fulfilled (l : label) (c : Control) : bool :=
  match l with
  | Fulfil i (VBlob _) =>
      match pending c !! i with Some (Downloading _ _) => true | _ => false end
  | _ => false
  end.

Definition save_fulfilled (l : label) (c : Control) : bool :=
  match l with
  | Fulfil i VVoid =>
      match pending c !! i with Some (Saving _ _) => true | _ => false end
  | _ => false
  end.

(** The payloads of the events of one type, the urls downloaded, and the
    number of recounts, in a list of effects. *)
Definition fired (type : string) (es : list effect) : list (option SaveStatus) :=
  omap (fun e => match e with
                 | fire t d => if String.eqb t type then Some d else None
                 | _ => None
                 end) es.

Definition fetched (es : list effect) : list string :=
  omap (fun e => match e with downloadTile u => Some u | _ => None end) es.

Definition recounts (es : list effect) : nat :=
  length (omap (fun e => match e with getStorageLength => Some tt | _ => None end) es).

(** The status records handed to listeners and hooks by a list of effects. *)
Definition observed (es : list effect) : list SaveStatus :=
  omap (fun e => match e with
                 | fire _ (Some s) | call_confirm s | call_confirmRemoval s => Some s
                 | _ => None
                 end) es.

(** The counters of a run that targets [n] tiles, in their order. *)
Definition ordered (n : Z) (s : SaveStatus) : Prop :=
  lengthToBeSaved s = n /\ 0 <= lengthSaved s <= lengthLoaded s /\ lengthLoaded s <= n.

(** 1 once [lengthSaved] has reached a [lengthToBeSaved] above zero, 0
    before. *)
Definition all_saved (s : SaveStatus) : Z :=
  if bool_decide (0 < lengthToBeSaved s <= lengthSaved s) then 1 else 0.

(** The control after the loaders of array [r] claimed [k] more tiles. *)
Definition claimed (k : nat) (r : ref) (c : Control) : Control :=
  with_pending (pending c ++ (Downloading r <$> take k (deref c r)))
    (with_heap (<[r := drop k (deref c r)]> (heap c)) c).

(** What holds of the control throughout a save run whose array is [r] and
    that targets [n] tiles. *)
Record run_inv (r : ref) (n : Z) (c : Control) : Prop := {
  inv_ref : _tilesforSave (status c) = r;
  inv_total : lengthToBeSaved (status c) = n;
  inv_valid : (r < length (heap c))%nat;
  inv_tasks : Forall (of_run r) (pending c);
  inv_loaded :
    lengthLoaded (status c) + inflight is_Downloading (pending c)
      + Z.of_nat (length (deref c r)) <= n;
  inv_saved_pos : 0 <= lengthSaved (status c);
  inv_saved :
    lengthSaved (status c) + inflight is_Saving (pending c) <= lengthLoaded (status c)
}.

(** *** Further observations *)

Definition is_Looping (t : task) : bool :=
  match t with Looping _ => true | _ => false end.

(** 1 once [lengthLoaded] has reached a [lengthToBeSaved] above zero, 0
    before. *)
Definition all_loaded (s : SaveStatus) : Z :=
  if bool_decide (0 < lengthToBeSaved s <= lengthLoaded s) then 1 else 0.

(** The tiles handed to [saveTile], in the order of the calls. *)
Definition saved_tiles (es : list effect) : list TileManager.TileInfo :=
  omap (fun e => match e with saveTile tile _ => Some tile | _ => None end) es.

(** No count, no removal is under way. *)
Definition counted (t : task) : bool :=
  match t with
  | Counting | Truncating | ConfirmingRemoval => false
  | _ => true
  end.

(** The worker loops: the loaders that wait for their download or are queued
    to claim their next tile. *)
Definition loops (c : Control) : Z :=
  inflight is_Downloading (pending c) + inflight is_Looping (pending c).

(** The tiles that left array [r] between [c] and [c']. *)
Definition taken (c c' : Control) (r : ref) : list TileManager.TileInfo :=
  take (length (deref c r) - length (deref c' r)) (deref c r).

(** Between [c] and [c'] every array only lost first tiles, and the urls
    downloaded by [e] are those of the tiles lost, each once. *)
Definition shifted (c c' : Control) (e : list effect) : Prop :=
  length (heap c') = length (heap c) /\
  (forall r, deref c r = taken c c' r ++ deref c' r) /\
  fetched e ≡ₚ TileManager.url <$> mjoin (taken c c' <$> seq 0 (length (heap c))).


(** The download a reaction waits for was requested with one of [urls]. *)
Definition downloaded (urls : list string) (t : task) : Prop :=
  match t with
  | Downloading _ tile => TileManager.url tile ∈ urls
  | _ => True
  end.

End Orchestrator.

(** ** A small map for the examples *)

Module Sample.

(** A flat geometry: points and coordinates are pairs of integers, a
    rectangle is its two corners, and projecting changes nothing. *)
Definition flat : Leaflet.Geometry :=
  {| Leaflet.LatLng := Z * Z;
     Leaflet.LatLngBounds := (Z * Z) * (Z * Z);
     Leaflet.Point := Z * Z;
     Leaflet.Bounds := (Z * Z) * (Z * Z);
     Leaflet.getNorthWest := fst;
     Leaflet.getSouthEast := snd;
     Leaflet.bounds := pair |}.

Definition map_at (zoom : Z) : @Leaflet.Map flat :=
  @Leaflet.Build_Map flat zoom ((0, 0), (1, 1)) (fun p _ => p).

(** Tile names by zoom level. *)
Definition name (zoom : Z) : string :=
  match zoom with
  | 4 => "z4" | 5 => "z5" | 6 => "z6" | 7 => "z7"
  | 13 => "z13" | 14 => "z14" | 15 => "z15"
  | _ => "z"
  end.

(** A layer with one tile for each zoom level, at the north-west corner. *)
Definition tile (zoom : Z) : TileManager.TileInfo :=
  {| TileManager.url := name zoom; TileManager.key := name zoom;
     TileManager.x := 0; TileManager.y := 0; TileManager.z := zoom |}.

Definition layer : @TileLayerOffline flat :=
  @Build_TileLayerOffline flat (fun _ zoom => [tile zoom]).

(** The defaults of the constructor, with [parallel] and [zoomlevels] set. *)
Definition opts (parallel : Z) (zoomlevels : option (list Z)) : @SaveTileOptions flat :=
  @Build_SaveTileOptions flat 19 false None false false parallel zoomlevels.

Definition asking (o : @SaveTileOptions flat) : @SaveTileOptions flat :=
  @Build_SaveTileOptions flat (maxZoom o) (saveWhatYouSee o) (bounds o) true
    (confirmRemoval o) (parallel o) (zoomlevels o).

Definition seeing (o : @SaveTileOptions flat) : @SaveTileOptions flat :=
  @Build_SaveTileOptions flat (maxZoom o) true (bounds o) (confirm o)
    (confirmRemoval o) (parallel o) (zoomlevels o).

(** A control once the count of its constructor is settled with [n]. *)
Definition control (zoom : Z) (o : @SaveTileOptions flat) (n : Z) : @Control flat :=
  let c := fst (constructor (map_at zoom) layer o) in
  match step (Fulfil 0 (VNumber n)) c with
  | Some (c, _) => c
  | None => c
  end.

Definition blob : TileManager.Blob := [].

(** The control and the effects after a save request, and after a session. *)
Definition request (c : @Control flat) : @Control flat * list effect :=
  let '(_, c1, e1) := _saveTiles c in (c1, e1).

(** The control at the confirmation gate of a save request. *)
Definition at_gate (c : @Control flat) : @Control flat :=
  (_saveTiles_reset c).1.2.

Definition session (ls : list label) (c : @Control flat)
    : @Control flat * list effect :=
  default (c, []) (run ls c).

(** *** The scenarios of the examples, evaluated *)

(** Ten tiles stored; the levels 13, 14 and 15; two loaders. *)
Definition three : @Control flat :=
  Eval vm_compute in control 13 (opts 2 (Some [13; 14; 15])) 10.
Definition three_gate : @Control flat := Eval vm_compute in at_gate three.
Definition three_started : @Control flat * list effect :=
  Eval vm_compute in request three.

(** The first download and its save are done, the third tile is claimed. *)
Definition first_saved : list label :=
  [Fulfil 0 (VBlob blob); Microtask 2; Fulfil 1 VVoid].
Definition three_first_saved : @Control flat * list effect :=
  Eval vm_compute in session first_saved three_started.1.

(** The same with nothing stored, to the end and the recount. *)
Definition fresh : @Control flat :=
  Eval vm_compute in control 13 (opts 2 (Some [13; 14; 15])) 0.
Definition fresh_started : @Control flat * list effect :=
  Eval vm_compute in request fresh.
Definition to_the_end : list label :=
  [Fulfil 0 (VBlob blob); Microtask 2; Fulfil 1 VVoid;
   Fulfil 0 (VBlob blob); Fulfil 0 (VBlob blob);
   Microtask 1; Microtask 2; Fulfil 0 VVoid; Fulfil 0 VVoid;
   Fulfil 0 (VNumber 3)].
Definition fresh_done : @Control flat * list effect :=
  Eval vm_compute in session to_the_end fresh_started.1.

(** Ten tiles stored and one tile to save. *)
Definition one : @Control flat :=
  Eval vm_compute in control 13 (opts 2 (Some [13])) 10.
Definition one_started : @Control flat * list effect :=
  Eval vm_compute in request one.
Definition one_tile : list label :=
  [Fulfil 0 (VBlob blob); Fulfil 0 VVoid; Microtask 0].
Definition one_done : @Control flat * list effect :=
  Eval vm_compute in session one_tile one_started.1.

(** No level, no tile. *)
Definition none : @Control flat :=
  Eval vm_compute in control 13 (opts 2 (Some [])) 10.
Definition none_started : @Control flat * list effect :=
  Eval vm_compute in request none.

(** The levels 7 and 5, in this order. *)
Definition seven_five : @Control flat :=
  Eval vm_compute in control 13 (opts 2 (Some [7; 5])) 10.
Definition seven_five_gate : @Control flat := Eval vm_compute in at_gate seven_five.

(** Saving what is seen, at zoom 17 and at zoom 4. *)
Definition seen17 : @Control flat :=
  Eval vm_compute in control 17 (seeing (opts 2 None)) 10.
Definition seen17_gate : @Control flat := Eval vm_compute in at_gate seen17.
Definition seen4 : @Control flat :=
  Eval vm_compute in control 4 (seeing (opts 2 None)) 10.


(** A confirmation hook that does not call back, while the tiles stored are
    removed. *)
Definition asked : @Control flat :=
  Eval vm_compute in control 13 (asking (opts 2 (Some [13; 14; 15]))) 10.
Definition asked_gate : @Control flat := Eval vm_compute in at_gate asked.
Definition asked_started : @Control flat * list effect :=
  Eval vm_compute in request asked.
Definition removing : list label := [ClickRemove; Fulfil 1 VVoid].
Definition asked_removed : @Control flat * list effect :=
  Eval vm_compute in session removing asked_started.1.

(** A second request while the two downloads of the first are in flight, and
    the four downloads fulfilled. *)
Definition twice : list label :=
  [ClickSave; ClickSave; Fulfil 0 (VBlob blob); Fulfil 0 (VBlob blob);
   Fulfil 0 (VBlob blob); Fulfil 0 (VBlob blob)].
Definition three_twice : @Control flat * list effect :=
  Eval vm_compute in session twice three.

(** Ten tiles stored, a removal without a hook. *)
Definition stored : @Control flat :=
  Eval vm_compute in control 13 (opts 2 None) 10.
Definition stored_removing : @Control flat * list effect :=
  Eval vm_compute in session [ClickRemove] stored.
Definition empty : @Control flat :=
  Eval vm_compute in control 13 (opts 2 None) 0.


(** *** Further scenarios *)

(** The first download of the three tiles is rejected, the second is
    answered and saved, and the loader left claims the third tile. *)
Definition after_download_rejected : list label :=
  [Fulfil 0 (VBlob blob); Microtask 1; Fulfil 0 VVoid;
   Fulfil 0 (VBlob blob); Fulfil 0 VVoid; Microtask 0].
Definition download_rejected : list label := Reject 0 :: after_download_rejected.
Definition three_download_rejected : @Control flat * list effect :=
  Eval vm_compute in session download_rejected three_started.1.

(** The first download is answered; its save is rejected, the others are
    done. *)
Definition first_loaded : list label := [Fulfil 0 (VBlob blob)].
Definition three_first_loaded : @Control flat * list effect :=
  Eval vm_compute in session first_loaded three_started.1.
Definition after_save_rejected : list label :=
  [Microtask 1; Fulfil 0 (VBlob blob); Fulfil 0 (VBlob blob);
   Fulfil 0 VVoid; Microtask 0; Fulfil 0 VVoid; Microtask 0].
Definition save_rejected : list label := Reject 1 :: after_save_rejected.
Definition three_save_rejected : @Control flat * list effect :=
  Eval vm_compute in session save_rejected three_first_loaded.1.

(** Ten tiles stored: a request and its one tile saved. *)
Definition one_click : list label := ClickSave :: one_tile.
Definition one_clicked : @Control flat * list effect :=
  Eval vm_compute in session one_click one.

(** Saving what is seen at zoom 20, beyond the [maxZoom] of 19. *)
Definition seen20 : @Control flat :=
  Eval vm_compute in control 20 (seeing (opts 2 None)) 10.
Definition seen20_started : @Control flat * list effect :=
  Eval vm_compute in request seen20.

(** A removal after the request without tiles. *)
Definition removing_now : list label := [ClickRemove; Fulfil 0 VVoid].
Definition none_removed : @Control flat * list effect :=
  Eval vm_compute in session removing_now none_started.1.

(** From the constructor: the count finds nothing, then a request and its
    three tiles to the end. *)
Definition built : @Control flat * list effect :=
  Eval vm_compute in constructor (map_at 13) layer (opts 2 (Some [13; 14; 15])).
Definition from_new : list label :=
  Fulfil 0 (VNumber 0) :: ClickSave :: to_the_end.
Definition built_done : @Control flat * list effect :=
  Eval vm_compute in session from_new built.1.

(** A second request while the two downloads of the first are in flight. *)
Definition three_again : @Control flat * list effect :=
  Eval vm_compute in request three_started.1.

(** Three tiles and no loader allowed. *)
Definition unhurried : @Control flat :=
  Eval vm_compute in control 13 (opts 0 (Some [13; 14; 15])) 10.
Definition unhurried_started : @Control flat * list effect :=
  Eval vm_compute in request unhurried.
Definition unhurried_removed : @Control flat * list effect :=
  Eval vm_compute in session removing_now unhurried_started.1.

(** *** Scenarios of runs that are not alone, and of a second request *)

(** The count of the recount is rejected. *)
Definition uncounted : list label :=
  [Fulfil 0 (VBlob blob); Microtask 2; Fulfil 1 VVoid;
   Fulfil 0 (VBlob blob); Fulfil 0 (VBlob blob);
   Microtask 1; Microtask 2; Fulfil 0 VVoid; Fulfil 0 VVoid;
   Reject 0].
Definition fresh_uncounted : @Control flat * list effect :=
  Eval vm_compute in session uncounted fresh_started.1.

(** The first download of the three tiles is rejected at once. *)
Definition three_rejected : @Control flat * list effect :=
  Eval vm_compute in session [Reject 0] three_started.1.

(** With a hook: the hook calls back and the run goes to its end; then a
    second request, whose callback is called, and its first download. *)
Definition confirmed_to_the_end : list label :=
  [ProceedSave 0; Fulfil 1 (VBlob blob); Microtask 3; Fulfil 2 VVoid;
   Fulfil 1 (VBlob blob); Fulfil 1 (VBlob blob); Microtask 2; Microtask 3;
   Fulfil 1 VVoid; Fulfil 1 VVoid].
Definition asked_done : @Control flat * list effect :=
  Eval vm_compute in session confirmed_to_the_end asked_started.1.
Definition asked_second : @Control flat * list effect :=
  Eval vm_compute in request asked_done.1.
Definition second_confirmed : list label :=
  [ProceedSave 1; Fulfil 2 (VBlob blob)].
Definition asked_second_confirmed : @Control flat * list effect :=
  Eval vm_compute in session second_confirmed asked_second.1.

(** With a hook: a second request while the downloads of the first run are
    in flight; its callback is not called, and the first run goes on. *)
Definition asked_running : @Control flat * list effect :=
  Eval vm_compute in session [ProceedSave 0] asked_started.1.
Definition asked_again : @Control flat * list effect :=
  Eval vm_compute in request asked_running.1.
Definition asked_again_gate : @Control flat :=
  Eval vm_compute in at_gate asked_running.1.
Definition going_on : list label := [Fulfil 1 (VBlob blob); Microtask 4].
Definition asked_again_going_on : @Control flat * list effect :=
  Eval vm_compute in session going_on asked_again.1.

(** With a hook: a second request while the dialog of the first is still
    open; then the hook calls back the callback of the first request, and
    after it the callback of the second. *)
Definition asked_twice : @Control flat * list effect :=
  Eval vm_compute in request asked_started.1.
Definition asked_twice_first : @Control flat * list effect :=
  Eval vm_compute in session [ProceedSave 0] asked_twice.1.
Definition both_callbacks : list label :=
  [ProceedSave 0; ProceedSave 1; Fulfil 2 (VBlob blob); Fulfil 2 (VBlob blob);
   Fulfil 2 (VBlob blob); Fulfil 2 (VBlob blob)].
Definition asked_twice_both : @Control flat * list effect :=
  Eval vm_compute in session both_callbacks asked_twice.1.

End Sample.

(** * Properties *)

Section Properties.

Context `{G : Leaflet.Geometry}.
Implicit Types (c : Control) (r : ref) (p : list task) (es : list effect).

(** ** Bookkeeping *)

Lemma with_heap_id c : with_heap (heap c) c = c.
Proof. by destruct c. Qed.

Lemma inflight_app f p q : inflight f (p ++ q) = inflight f p + inflight f q.
Proof. unfold inflight. rewrite List.filter_app, length_app. lia. Qed.

Lemma inflight_delete f p i t :
  p !! i = Some t ->
  inflight f (delete i p) = inflight f p - (if f t then 1 else 0).
Proof.
  unfold inflight. revert i. induction p as [|a p IH]; intros [|i] Hi; try done.
  - injection Hi as ->. cbn. destruct (f t); cbn [length]; lia.
  - specialize (IH _ Hi). change (delete (S i) (a :: p)) with (a :: delete i p).
    cbn [List.filter]. destruct (f a); cbn [length]; lia.
Qed.

Lemma deref_insert c r l :
  (r < length (heap c))%nat -> deref (with_heap (<[r := l]> (heap c)) c) r = l.
Proof. intros Hr. unfold deref. cbn. by rewrite list_lookup_insert_eq. Qed.

Lemma fired_app type es es' : fired type (es ++ es') = fired type es ++ fired type es'.
Proof. apply omap_app. Qed.

Lemma fetched_app es es' : fetched (es ++ es') = fetched es ++ fetched es'.
Proof. apply omap_app. Qed.

Lemma recounts_app es es' : recounts (es ++ es') = (recounts es + recounts es')%nat.
Proof. unfold recounts. by rewrite omap_app, length_app. Qed.

(** ** The loaders *)

Lemma loader_eq r c :
  loader r c =
  match deref c r with
  | [] => (tt, c, [])
  | tile :: rest =>
      (tt, with_pending (pending c ++ [Downloading r tile])
             (with_heap (<[r := rest]> (heap c)) c),
       [downloadTile (TileManager.url tile)])
  end.
Proof.
  unfold loader, shift, _loadTile, mbind, M_bind, mret, M_ret, perform, spawn.
  destruct (deref c r); reflexivity.
Qed.

(** [n] calls of the loader in a row claim the first [n] tiles, or all of
    them when fewer remain. *)
Lemma times_loader r n c :
  (r < length (heap c))%nat ->
  times n (loader r) c =
  (tt, claimed n r c,
   (fun t => downloadTile (TileManager.url t)) <$> take n (deref c r)).
Proof.
  unfold claimed. revert c. induction n as [|n IH]; intros c Hr.
  - cbn. unfold mret, M_ret. rewrite drop_0, app_nil_r.
    assert (<[r := deref c r]> (heap c) = heap c) as ->.
    { unfold deref. destruct (lookup_lt_is_Some_2 _ _ Hr) as [l Hl].
      rewrite Hl. cbn. by apply list_insert_id. }
    by destruct c.
  - cbn [times]. unfold mbind, M_bind. rewrite loader_eq.
    destruct (deref c r) as [|tile rest] eqn:Hd.
    + rewrite IH by done. rewrite Hd. by rewrite !take_nil, !drop_nil.
    + rewrite IH by (cbn; by rewrite length_insert).
      change (deref (with_pending ?p ?c') r) with (deref c' r).
      rewrite deref_insert by done.
      unfold with_pending, with_heap. cbn.
      by rewrite list_insert_insert_eq, <- app_assoc.
Qed.


(** ** One step preserves the invariant of the run *)

Lemma claimed_loader r c :
  (r < length (heap c))%nat ->
  loader r c =
  (tt, claimed 1 r c,
   (fun t => downloadTile (TileManager.url t)) <$> take 1 (deref c r)).
Proof.
  intros Hr. rewrite <- (times_loader r 1 c Hr). cbn. unfold mbind, M_bind, mret, M_ret.
  destruct (loader r c) as [[[] c1] e1]. by rewrite app_nil_r.
Qed.

Lemma successCallback_eq r c :
  (r < length (heap c))%nat ->
  let n := Z.to_nat (Z.min (Z.of_nat (length (deref c r))) (parallel (options c))) in
  successCallback r c =
  (tt, claimed n r c,
   fire "savestart" (Some (status c))
     :: ((fun t => downloadTile (TileManager.url t)) <$> take n (deref c r))).
Proof.
  intros Hr n. unfold successCallback, fire_status, mbind, M_bind, this, perform.
  cbn. by rewrite times_loader.
Qed.

Lemma inflight_singleton f t : inflight f [t] = if f t then 1 else 0.
Proof. unfold inflight. cbn. by destruct (f t). Qed.

Lemma inflight_fmap_Downloading r (l : list TileManager.TileInfo) :
  inflight is_Downloading (Downloading r <$> l) = Z.of_nat (length l).
Proof. unfold inflight. induction l; cbn [fmap list_fmap List.filter is_Downloading length] in *; lia. Qed.

Lemma inflight_fmap_Saving r (l : list TileManager.TileInfo) :
  inflight is_Saving (Downloading r <$> l) = 0.
Proof. unfold inflight. induction l; cbn in *; lia. Qed.

Lemma run_inv_claimed r n k c : run_inv r n c -> run_inv r n (claimed k r c).
Proof.
  intros [Href Htot Hval Htasks Hload Hpos Hsaved].
  split; unfold claimed; cbn; try done.
  - by rewrite length_insert.
  - apply Forall_app. split; [done|]. apply Forall_fmap, Forall_forall. by intros.
  - change (deref (with_pending ?p ?c') r) with (deref c' r).
    rewrite deref_insert, inflight_app, inflight_fmap_Downloading by done.
    pose proof (take_drop k (deref c r)) as Hk. apply (f_equal length) in Hk.
    rewrite length_app in Hk. lia.
  - rewrite inflight_app, inflight_fmap_Saving. lia.
Qed.

Ltac exec_in H :=
  unfold discard, _saveTile_then, _loadTile_then, _saveTile, truncate_then,
    _rmTiles, rm_successCallback, setStorageSize_settled, setStorageSize,
    fire_status, settle, set_status, spawn, perform, this,
    mbind, M_bind, mret, M_ret in H;
  cbn in H.

Ltac inv_done Hi :=
  split; unfold deref in *; cbn;
  rewrite ?inflight_app, ?inflight_singleton, ?Forall_app,
    ?(inflight_delete _ _ _ _ Hi); cbn;
  try (done || lia);
  try (rewrite ?Forall_cons, ?Forall_nil; repeat split; (done || by apply Forall_delete)).

Lemma own_callback_lookup r i c tiles :
  own_callback r (ProceedSave i) c = true ->
  pending c !! i = Some (ConfirmingSave tiles) -> tiles = r.
Proof. unfold own_callback. intros Hown Hi. rewrite Hi in Hown. by apply Nat.eqb_eq. Qed.

Lemma step_inv r n l c c' e :
  run_inv r n c -> own_callback r l c = true ->
  l <> ClickSave -> step l c = Some (c', e) -> run_inv r n c'.
Proof.
  intros Hinv Hown Hl Hs. pose proof Hinv as [Href Htot Hval Htasks Hload Hpos Hsaved].
  destruct l as [| | |i|i|i|i v|i]; try done; unfold step in Hs.
  - exec_in Hs. destruct (confirmRemoval _); simplify_eq; inv_done I.
  - exec_in Hs. case_bool_decide; simplify_eq; inv_done I.
  - destruct (pending c !! i) as [[]|] eqn:Hi; try done.
    assert (tiles = r) as -> by apply (own_callback_lookup _ _ _ _ Hown Hi).
    rewrite successCallback_eq in Hs by done. simplify_eq.
    by apply run_inv_claimed.
  - destruct (pending c !! i) as [[]|] eqn:Hi; try done.
    exec_in Hs. simplify_eq. inv_done Hi.
  - destruct (pending c !! i) as [[]|] eqn:Hi; try done.
    assert (tiles = r) as -> by apply (Forall_lookup_1 _ _ _ _ Htasks Hi).
    unfold mbind, M_bind, settle in Hs. rewrite claimed_loader in Hs by done.
    simplify_eq. apply run_inv_claimed. inv_done Hi.
  - destruct (pending c !! i) as [[]|] eqn:Hi; try done; destruct v; try done;
      pose proof (Forall_lookup_1 _ _ _ _ Htasks Hi) as Ht; cbn in Ht;
      exec_in Hs; repeat case_bool_decide; simplify_eq; inv_done Hi.
  - destruct (pending c !! i) as [[]|] eqn:Hi; try done;
      exec_in Hs; simplify_eq; inv_done Hi.
Qed.


Lemma inflight_nonneg f p : 0 <= inflight f p.
Proof. unfold inflight. lia. Qed.

Lemma inflight_lookup f p i t : p !! i = Some t -> f t = true -> 1 <= inflight f p.
Proof.
  intros Hi Hf. pose proof (inflight_delete f p i t Hi) as Hd. rewrite Hf in Hd.
  pose proof (inflight_nonneg f (delete i p)). lia.
Qed.

Lemma observed_app es es' : observed (es ++ es') = observed es ++ observed es'.
Proof. apply omap_app. Qed.

Lemma observed_fetches (l : list TileManager.TileInfo) :
  observed ((fun t => downloadTile (TileManager.url t)) <$> l) = [].
Proof. by induction l. Qed.

Lemma run_inv_ordered r n c : run_inv r n c -> ordered n (status c).
Proof.
  intros [? ? ? ? Hl ? Hs]. unfold ordered.
  pose proof (inflight_nonneg is_Downloading (pending c)).
  pose proof (inflight_nonneg is_Saving (pending c)). lia.
Qed.

(** What the listeners see during a step is in order too. *)
Ltac obs_done :=
  cbn; rewrite ?observed_fetches, ?Forall_cons, ?Forall_nil;
  unfold ordered in *; cbn; repeat split; try (done || lia).

Lemma step_observed r n l c c' e :
  run_inv r n c -> own_callback r l c = true ->
  l <> ClickSave -> step l c = Some (c', e) ->
  Forall (ordered n) (observed e).
Proof.
  intros Hinv Hown Hl Hs. pose proof (run_inv_ordered _ _ _ Hinv) as Hord.
  pose proof Hinv as [Href Htot Hval Htasks Hload Hpos Hsaved].
  pose proof (inflight_nonneg is_Downloading (pending c)).
  pose proof (inflight_nonneg is_Saving (pending c)).
  destruct l as [| | |i|i|i|i v|i]; try done; unfold step in Hs.
  - exec_in Hs. destruct (confirmRemoval _); simplify_eq; obs_done.
  - exec_in Hs. case_bool_decide; simplify_eq; obs_done.
  - destruct (pending c !! i) as [[]|] eqn:Hi; try done.
    assert (tiles = r) as -> by apply (own_callback_lookup _ _ _ _ Hown Hi).
    rewrite successCallback_eq in Hs by done. simplify_eq. obs_done.
  - destruct (pending c !! i) as [[]|] eqn:Hi; try done.
    exec_in Hs. simplify_eq. obs_done.
  - destruct (pending c !! i) as [[]|] eqn:Hi; try done.
    assert (tiles = r) as -> by apply (Forall_lookup_1 _ _ _ _ Htasks Hi).
    unfold mbind, M_bind, settle in Hs. rewrite claimed_loader in Hs by done.
    simplify_eq. obs_done.
  - destruct (pending c !! i) as [[]|] eqn:Hi; try done; destruct v; try done;
      try pose proof (inflight_lookup is_Downloading _ _ _ Hi eq_refl);
      try pose proof (inflight_lookup is_Saving _ _ _ Hi eq_refl);
      exec_in Hs; repeat case_bool_decide; simplify_eq; obs_done.
  - destruct (pending c !! i) as [[]|] eqn:Hi; try done;
      exec_in Hs; simplify_eq; obs_done.
Qed.

(** A session of a run alone, taken apart at its first step. *)
Lemma run_cons r l ls c c' e :
  ClickSave ∉ l :: ls -> own_callbacks r (l :: ls) c = true ->
  run (l :: ls) c = Some (c', e) ->
  exists c1 e1 e2,
    step l c = Some (c1, e1) /\ run ls c1 = Some (c', e2) /\ e = e1 ++ e2 /\
    l <> ClickSave /\ own_callback r l c = true /\
    (ClickSave ∉ ls) /\ own_callbacks r ls c1 = true.
Proof.
  intros Hls Hown Hrun. cbn in Hrun, Hown.
  destruct (step l c) as [[c1 e1]|] eqn:Hs; [|done].
  destruct (run ls c1) as [[c2 e2]|] eqn:Hr; [|done]. simplify_eq.
  apply not_elem_of_cons in Hls as [Hl Hls].
  apply andb_prop in Hown as [Hown1 Hown2].
  exists c1, e1, e2. repeat split; done.
Qed.

Lemma run_inv_run r n ls c c' e :
  run_inv r n c -> ClickSave ∉ ls -> own_callbacks r ls c = true ->
  run ls c = Some (c', e) -> run_inv r n c'.
Proof.
  revert c e. induction ls as [|l ls IH]; intros c e Hinv Hls Hown Hrun.
  - cbn in Hrun. by simplify_eq.
  - destruct (run_cons _ _ _ _ _ _ Hls Hown Hrun)
      as (c1 & e1 & e2 & Hs & Hr & -> & Hl & Hown1 & Hls' & Hown').
    eapply IH; [|done..]. by eapply step_inv.
Qed.


(** ** A save request when nothing is under way *)

Lemma settled_tasks r c :
  settled c ->
  Forall (of_run r) (pending c) /\
  inflight is_Downloading (pending c) = 0 /\ inflight is_Saving (pending c) = 0.
Proof.
  unfold settled, inflight. induction (pending c) as [|t p IH]; cbn; [done|].
  intros [Ht Hp]%andb_prop. destruct (IH Hp) as (? & ? & ?).
  destruct t; try done; cbn; by repeat split; try constructor.
Qed.

Lemma _saveTiles_reset_eq c :
  _saveTiles_reset c =
  match requestedZoomlevels c with
  | inl message => (inl message, c, [])
  | inr zoomlevels =>
      let tiles := collectTiles c zoomlevels in
      (inr (length (heap c)),
       with_status {| lengthLoaded := 0;
                      lengthToBeSaved := Z.of_nat (length tiles);
                      lengthSaved := 0;
                      _tilesforSave := length (heap c);
                      storagesize := storagesize (status c) |}
         (with_heap (heap c ++ [tiles]) c),
       [])
  end.
Proof.
  unfold _saveTiles_reset, _resetStatus, new_array, set_status, this,
    mbind, M_bind, mret, M_ret. cbn.
  destruct (requestedZoomlevels c); [done|]. cbn. unfold deref. cbn.
  by rewrite lookup_app_r, Nat.sub_diag by done.
Qed.

Lemma _saveTiles_reset_inv c r c1 e :
  settled c -> _saveTiles_reset c = (inr r, c1, e) ->
  run_inv r (Z.of_nat (length (deref c1 r))) c1 /\ settled c1.
Proof.
  intros Hq. rewrite _saveTiles_reset_eq. destruct (requestedZoomlevels c); [done|].
  cbn. intros ?; simplify_eq. destruct (settled_tasks (length (heap c)) c Hq) as (Ht & Hd & Hs).
  assert (deref (with_heap (heap c ++ [collectTiles c l]) c) (length (heap c))
          = collectTiles c l) as Hderef.
  { unfold deref. cbn. by rewrite lookup_app_r, Nat.sub_diag by done. }
  split; [|done]. split; cbn; rewrite ?length_app, ?Hd, ?Hs; cbn; try (done || lia).
  change (deref (with_status ?s ?c') ?r) with (deref c' r). rewrite Hderef. lia.
Qed.


Lemma _saveTiles_confirm_eq r c :
  _saveTiles_confirm r c =
  if confirm (options c)
  then (tt, with_pending (pending c ++ [ConfirmingSave r]) c, [call_confirm (status c)])
  else successCallback r c.
Proof.
  unfold _saveTiles_confirm, this, perform, spawn, mbind, M_bind. cbn.
  destruct (confirm (options c)); [done|]. by destruct (successCallback r c) as [[[] ?] ?].
Qed.

Lemma _saveTiles_Returned c c2 e :
  _saveTiles c = (Returned, c2, e) ->
  exists r c1, _saveTiles_reset c = (inr r, c1, []) /\ _saveTiles_confirm r c1 = (tt, c2, e).
Proof.
  unfold _saveTiles, mbind, M_bind, mret, M_ret. rewrite _saveTiles_reset_eq.
  destruct (requestedZoomlevels c) as [m|zs]; cbn; [done|].
  destruct (_saveTiles_confirm _ _) as [[[] c'] e'] eqn:Hc. intros ?; simplify_eq.
  eexists _, _. split; [done|]. by rewrite Hc, app_nil_r.
Qed.

Lemma _saveTiles_confirm_inv r n c c' e :
  run_inv r n c -> _saveTiles_confirm r c = (tt, c', e) ->
  run_inv r n c' /\ Forall (ordered n) (observed e).
Proof.
  intros Hinv. pose proof (run_inv_ordered _ _ _ Hinv) as Hord.
  rewrite _saveTiles_confirm_eq. destruct (confirm (options c)).
  - intros ?; simplify_eq. split; [|obs_done].
    destruct Hinv. inv_done I.
  - rewrite successCallback_eq by apply Hinv. intros ?; simplify_eq.
    split; [by apply run_inv_claimed|obs_done].
Qed.

Lemma run_observed r n ls c c' e :
  run_inv r n c -> ClickSave ∉ ls -> own_callbacks r ls c = true ->
  run ls c = Some (c', e) ->
  Forall (ordered n) (observed e).
Proof.
  revert c e. induction ls as [|l ls IH]; intros c e Hinv Hls Hown Hrun.
  - cbn in Hrun. simplify_eq. constructor.
  - destruct (run_cons _ _ _ _ _ _ Hls Hown Hrun)
      as (c1 & e1 & e2 & Hs & Hr & -> & Hl & Hown1 & Hls' & Hown').
    rewrite observed_app. apply Forall_app. split.
    + by eapply step_observed.
    + eapply IH; [|done..]. by eapply step_inv.
Qed.


Lemma fetched_fetches (l : list TileManager.TileInfo) :
  fetched ((fun t => downloadTile (TileManager.url t)) <$> l) = TileManager.url <$> l.
Proof. induction l; cbn; [done|]. by f_equal. Qed.

Lemma deref_claimed k r c :
  (r < length (heap c))%nat -> deref (claimed k r c) r = drop k (deref c r).
Proof. intros Hr. unfold claimed. by apply deref_insert. Qed.

(** The urls downloaded in a step are those of the tiles that left the list,
    in the order of the list. *)
Lemma step_fetched r n l c c' e :
  run_inv r n c -> own_callback r l c = true ->
  l <> ClickSave -> step l c = Some (c', e) ->
  fetched e ++ (TileManager.url <$> deref c' r) = TileManager.url <$> deref c r.
Proof.
  intros Hinv Hown Hl Hs. pose proof Hinv as [Href Htot Hval Htasks Hload Hpos Hsaved].
  destruct l as [| | |i|i|i|i v|i]; try done; unfold step in Hs.
  - exec_in Hs. by destruct (confirmRemoval _); simplify_eq.
  - exec_in Hs. by case_bool_decide; simplify_eq.
  - destruct (pending c !! i) as [[]|] eqn:Hi; try done.
    assert (tiles = r) as -> by apply (own_callback_lookup _ _ _ _ Hown Hi).
    rewrite successCallback_eq in Hs by done. simplify_eq. cbn.
    by rewrite fetched_fetches, deref_claimed, <- fmap_app, take_drop.
  - destruct (pending c !! i) as [[]|] eqn:Hi; try done.
    exec_in Hs. by simplify_eq.
  - destruct (pending c !! i) as [[]|] eqn:Hi; try done.
    assert (tiles = r) as -> by apply (Forall_lookup_1 _ _ _ _ Htasks Hi).
    unfold mbind, M_bind, settle in Hs. rewrite claimed_loader in Hs by done.
    simplify_eq. cbn.
    by rewrite fetched_fetches, deref_claimed, <- fmap_app, take_drop.
  - destruct (pending c !! i) as [[]|] eqn:Hi; try done; destruct v; try done;
      exec_in Hs; by repeat case_bool_decide; simplify_eq.
  - destruct (pending c !! i) as [[]|] eqn:Hi; try done;
      exec_in Hs; by simplify_eq.
Qed.

Lemma run_fetched r n ls c c' e :
  run_inv r n c -> ClickSave ∉ ls -> own_callbacks r ls c = true ->
  run ls c = Some (c', e) ->
  fetched e ++ (TileManager.url <$> deref c' r) = TileManager.url <$> deref c r.
Proof.
  revert c e. induction ls as [|l ls IH]; intros c e Hinv Hls Hown Hrun.
  - cbn in Hrun. by simplify_eq.
  - destruct (run_cons _ _ _ _ _ _ Hls Hown Hrun)
      as (c1 & e1 & e2 & Hs & Hr & -> & Hl & Hown1 & Hls' & Hown').
    rewrite fetched_app, <- app_assoc, (IH c1 e2); [by eapply step_fetched| |done..].
    by eapply step_inv.
Qed.


Lemma fired_fetches type (l : list TileManager.TileInfo) :
  fired type ((fun t => downloadTile (TileManager.url t)) <$> l) = [].
Proof. by induction l. Qed.

Lemma _saveTiles_all_saved c r c1 e :
  _saveTiles_reset c = (inr r, c1, e) ->
  all_saved (status c1) = 0 /\ lengthSaved (status c1) = 0 /\ lengthLoaded (status c1) = 0.
Proof.
  rewrite _saveTiles_reset_eq. destruct (requestedZoomlevels c); [done|].
  cbn. intros ?; simplify_eq. unfold all_saved. cbn.
  case_bool_decide as Hb; [lia|done].
Qed.


(** ** A run whose confirmation hook does not call back *)

Lemma forallb_delete (f : task -> bool) p i :
  forallb f p = true -> forallb f (delete i p) = true.
Proof.
  revert i. induction p as [|t p IH]; intros [|i]; cbn; try done.
  - by intros [_ ?]%andb_prop.
  - intros [-> ?]%andb_prop. by apply IH.
Qed.

Lemma forallb_lookup (f : task -> bool) p i t :
  forallb f p = true -> p !! i = Some t -> f t = true.
Proof.
  revert i. induction p as [|a p IH]; intros [|i]; cbn; try done.
  - intros [? _]%andb_prop ?. by simplify_eq.
  - intros [_ ?]%andb_prop. by apply IH.
Qed.

Lemma step_waiting l c c' e :
  forallb waiting (pending c) = true ->
  l <> ClickSave -> (forall i, l <> ProceedSave i) ->
  step l c = Some (c', e) ->
  forallb waiting (pending c') = true /\
  lengthLoaded (status c') = lengthLoaded (status c) /\
  lengthSaved (status c') = lengthSaved (status c) /\
  lengthToBeSaved (status c') = lengthToBeSaved (status c) /\
  _tilesforSave (status c') = _tilesforSave (status c) /\
  heap c' = heap c /\
  fetched e = [] /\ fired "savestart" e = [].
Proof.
  intros Hw Hl Hp Hs.
  pose proof (fun i => forallb_delete waiting (pending c) i Hw) as Hdel.
  pose proof (fun i t => forallb_lookup waiting (pending c) i t Hw) as Hlook.
  destruct l as [| | |i|i|i|i v|i]; try done; unfold step in Hs.
  - exec_in Hs. destruct (confirmRemoval _); simplify_eq; cbn;
      by rewrite forallb_app, Hw.
  - exec_in Hs. case_bool_decide; simplify_eq; cbn; by rewrite ?forallb_app, Hw.
  - by destruct (Hp i).
  - destruct (pending c !! i) as [[]|] eqn:Hi; try done.
    exec_in Hs. simplify_eq. cbn. by rewrite forallb_app, Hw.
  - destruct (pending c !! i) as [[]|] eqn:Hi; try done.
    by pose proof (Hlook _ _ Hi).
  - destruct (pending c !! i) as [[]|] eqn:Hi; try done; destruct v; try done;
      try (by pose proof (Hlook _ _ Hi));
      exec_in Hs; simplify_eq; cbn; by rewrite Hdel.
  - destruct (pending c !! i) as [[]|] eqn:Hi; try done;
      try (by pose proof (Hlook _ _ Hi));
      exec_in Hs; simplify_eq; cbn; by rewrite Hdel.
Qed.

Lemma run_waiting ls c c' e :
  forallb waiting (pending c) = true ->
  ClickSave ∉ ls -> (forall i, ProceedSave i ∉ ls) ->
  run ls c = Some (c', e) ->
  forallb waiting (pending c') = true /\
  lengthLoaded (status c') = lengthLoaded (status c) /\
  lengthSaved (status c') = lengthSaved (status c) /\
  lengthToBeSaved (status c') = lengthToBeSaved (status c) /\
  _tilesforSave (status c') = _tilesforSave (status c) /\
  heap c' = heap c /\
  fetched e = [] /\ fired "savestart" e = [].
Proof.
  revert c e. induction ls as [|l ls IH]; intros c e Hw Hls Hp Hrun; cbn in Hrun.
  - by simplify_eq.
  - destruct (step l c) as [[c1 e1]|] eqn:Hs; [|done].
    destruct (run ls c1) as [[c2 e2]|] eqn:Hr; [|done]. simplify_eq.
    apply not_elem_of_cons in Hls as [Hl Hls].
    assert (l <> ClickSave) as Hl' by congruence.
    assert (forall i, l <> ProceedSave i) as Hp1.
    { intros i ->. apply (Hp i). by left. }
    assert (forall i, ProceedSave i ∉ ls) as Hp2.
    { intros i Hi. apply (Hp i). by right. }
    destruct (step_waiting _ _ _ _ Hw Hl' Hp1 Hs) as (Hw1 & ? & ? & ? & ? & ? & Hf1 & Hs1).
    destruct (IH _ _ Hw1 Hls Hp2 Hr) as (? & ? & ? & ? & ? & ? & Hf2 & Hs2).
    rewrite fetched_app, fired_app, Hf1, Hf2, Hs1, Hs2. repeat split; congruence.
Qed.

Lemma inflight_waiting p :
  forallb waiting p = true -> inflight is_Downloading p = 0.
Proof.
  unfold inflight. induction p as [|t p IH]; cbn; [done|].
  intros [Ht Hp]%andb_prop. specialize (IH Hp). by destruct t.
Qed.

(** ** Steps of any control *)

(** *** The loaders, for any array *)

Lemma loader_invalid r c : (length (heap c) <= r)%nat -> loader r c = (tt, c, []).
Proof.
  intros Hr. rewrite loader_eq. unfold deref. by rewrite lookup_ge_None_2.
Qed.

Lemma claimed_invalid k r c : (length (heap c) <= r)%nat -> claimed k r c = c.
Proof.
  intros Hr. unfold claimed, deref. rewrite lookup_ge_None_2 by done. cbn.
  rewrite take_nil, drop_nil, list_insert_ge, app_nil_r by done. by destruct c.
Qed.

Lemma times_loader_any r n c :
  times n (loader r) c =
  (tt, claimed n r c,
   (fun t => downloadTile (TileManager.url t)) <$> take n (deref c r)).
Proof.
  destruct (decide (r < length (heap c))%nat) as [Hr|Hr]; [by apply times_loader|].
  rewrite claimed_invalid by lia. unfold deref. rewrite lookup_ge_None_2 by lia.
  cbn. rewrite take_nil. cbn. clear -Hr. induction n as [|n IH]; [done|].
  cbn. unfold mbind, M_bind. rewrite loader_invalid by lia. by rewrite IH.
Qed.

Lemma loader_any r c :
  loader r c =
  (tt, claimed 1 r c,
   (fun t => downloadTile (TileManager.url t)) <$> take 1 (deref c r)).
Proof.
  rewrite <- (times_loader_any r 1 c). cbn. unfold mbind, M_bind, mret, M_ret.
  destruct (loader r c) as [[[] c1] e1]. by rewrite app_nil_r.
Qed.

Lemma successCallback_any r c :
  let n := Z.to_nat (Z.min (Z.of_nat (length (deref c r))) (parallel (options c))) in
  successCallback r c =
  (tt, claimed n r c,
   fire "savestart" (Some (status c))
     :: ((fun t => downloadTile (TileManager.url t)) <$> take n (deref c r))).
Proof.
  intros n. unfold successCallback, fire_status, mbind, M_bind, this, perform.
  cbn. by rewrite times_loader_any.
Qed.

Lemma status_claimed k r c : status (claimed k r c) = status c.
Proof. reflexivity. Qed.

Lemma pending_claimed k r c :
  pending (claimed k r c) = pending c ++ (Downloading r <$> take k (deref c r)).
Proof. reflexivity. Qed.

(** The cases of a step, each with the control and the effects it ends in. *)
Ltac step_cases l c Hs Hi :=
  destruct l as [| | |i|i|i|i v|i]; unfold step in Hs;
  [ idtac
  | exec_in Hs; destruct (confirmRemoval (options c)); simplify_eq
  | exec_in Hs; case_bool_decide; simplify_eq
  | destruct (pending c !! i) as [[]|] eqn:Hi; try done;
    rewrite successCallback_any in Hs; simplify_eq
  | destruct (pending c !! i) as [[]|] eqn:Hi; try done; exec_in Hs; simplify_eq
  | destruct (pending c !! i) as [[]|] eqn:Hi; try done;
    unfold mbind, M_bind, settle in Hs; rewrite loader_any in Hs; simplify_eq
  | destruct (pending c !! i) as [[]|] eqn:Hi; try done; destruct v; try done;
    exec_in Hs; repeat case_bool_decide; simplify_eq
  | destruct (pending c !! i) as [[]|] eqn:Hi; try done; exec_in Hs; simplify_eq ].

Lemma saved_tiles_app es es' : saved_tiles (es ++ es') = saved_tiles es ++ saved_tiles es'.
Proof. apply omap_app. Qed.

Lemma saved_tiles_fetches (l : list TileManager.TileInfo) :
  saved_tiles ((fun t => downloadTile (TileManager.url t)) <$> l) = [].
Proof. by induction l. Qed.

Lemma fired_cons_fetches type e (l : list TileManager.TileInfo) :
  fired type (e :: ((fun t => downloadTile (TileManager.url t)) <$> l)) = fired type [e].
Proof.
  change (e :: ?es) with ([e] ++ es). by rewrite fired_app, fired_fetches, app_nil_r.
Qed.

Lemma fetched_cons_fetches type d (l : list TileManager.TileInfo) :
  fetched (fire type d :: ((fun t => downloadTile (TileManager.url t)) <$> l))
  = TileManager.url <$> l.
Proof. cbn. apply fetched_fetches. Qed.

Lemma saved_tiles_cons_fetches e (l : list TileManager.TileInfo) :
  saved_tiles (e :: ((fun t => downloadTile (TileManager.url t)) <$> l)) = saved_tiles [e].
Proof.
  change (e :: ?es) with ([e] ++ es).
  by rewrite saved_tiles_app, saved_tiles_fetches, app_nil_r.
Qed.

(** The effects of the loaders carry no event and no save. *)
Ltac plain_fetches :=
  rewrite ?fired_cons_fetches, ?saved_tiles_cons_fetches, ?fired_app, ?fired_fetches,
    ?saved_tiles_app, ?saved_tiles_fetches.


(** *** The all-saved event *)

(** The all-saved event of a step: fired when, and only when, the step takes
    [lengthSaved] to [lengthToBeSaved]. *)
Lemma step_all_saved l c c' e :
  0 <= lengthSaved (status c) -> l <> ClickSave -> step l c = Some (c', e) ->
  0 <= lengthSaved (status c') /\
  Z.of_nat (length (fired "saveend" e)) = all_saved (status c') - all_saved (status c).
Proof.
  intros Hpos Hl Hs. step_cases l c Hs Hi; try done.
  all: unfold claimed, all_saved; plain_fetches; cbn in *;
    repeat case_bool_decide; cbn; lia.
Qed.

Lemma run_all_saved ls c c' e :
  0 <= lengthSaved (status c) -> ClickSave ∉ ls -> run ls c = Some (c', e) ->
  0 <= lengthSaved (status c') /\
  Z.of_nat (length (fired "saveend" e)) = all_saved (status c') - all_saved (status c).
Proof.
  revert c e. induction ls as [|l ls IH]; intros c e Hpos Hls Hrun; cbn in Hrun.
  - simplify_eq. cbn. lia.
  - destruct (step l c) as [[c1 e1]|] eqn:Hs; [|done].
    destruct (run ls c1) as [[c2 e2]|] eqn:Hr; [|done]. simplify_eq.
    apply not_elem_of_cons in Hls as [Hl Hls].
    assert (l <> ClickSave) as Hl' by congruence.
    rewrite fired_app, length_app, Nat2Z.inj_add.
    destruct (step_all_saved l c c1 e1 Hpos Hl' Hs) as [Hpos1 H1].
    destruct (IH c1 e2 Hpos1 Hls Hr) as [Hpos2 H2].
    lia.
Qed.

(** *** What moves the counters *)

Lemma step_counters l c c' e :
  l <> ClickSave -> step l c = Some (c', e) ->
  lengthLoaded (status c')
    = lengthLoaded (status c) + (if download_fulfilled l c then 1 else 0) /\
  lengthSaved (status c')
    = lengthSaved (status c) + (if save_fulfilled l c then 1 else 0) /\
  (forall tile blob,
     Saving tile blob ∈ pending c' ->
     Saving tile blob ∈ pending c \/
     exists i tiles,
       l = Fulfil i (VBlob blob) /\ pending c !! i = Some (Downloading tiles tile)).
Proof.
  intros Hl Hs. step_cases l c Hs Hi; try done.
  all: unfold download_fulfilled, save_fulfilled; rewrite ?Hi;
    rewrite ?status_claimed, ?pending_claimed; cbn;
    (split; [lia|split; [lia|]]); intros tile' blob' Hin.
  all: repeat (apply elem_of_app in Hin as [Hin|Hin]);
    try (apply list_elem_of_fmap in Hin as (? & ? & ?); done);
    try (apply list_elem_of_delete_inv in Hin);
    try (by left);
    try (apply list_elem_of_singleton in Hin; try done).
  all: simplify_eq; right; by eexists _, _.
Qed.

(** *** The work lists only lose their first tiles *)

Lemma taken_app c c' r a : deref c r = a ++ deref c' r -> taken c c' r = a.
Proof.
  intros H. unfold taken. rewrite H, length_app.
  by apply take_app_length'; lia.
Qed.

Lemma join_fmap_app {A B} (f g : A -> list B) (l : list A) :
  mjoin ((fun x => f x ++ g x) <$> l) ≡ₚ mjoin (f <$> l) ++ mjoin (g <$> l).
Proof.
  induction l as [|x l IH]; cbn; [done|]. rewrite IH.
  rewrite <- !app_assoc. apply Permutation_app_head.
  rewrite !app_assoc. apply Permutation_app_tail, Permutation_app_comm.
Qed.

Lemma join_fmap_single {B} (r n : nat) (a : list B) :
  mjoin ((fun r' => if decide (r' = r) then a else []) <$> seq 0 n)
  = if decide (r < n)%nat then a else [].
Proof.
  induction n as [|n IH]; [done|].
  rewrite seq_S, fmap_app, join_app, IH. cbn. rewrite app_nil_r.
  repeat case_decide; try lia; by rewrite ?app_nil_r.
Qed.

Lemma shifted_refl c : shifted c c [].
Proof.
  assert (forall r, taken c c r = []) as Ht.
  { intros r. by apply taken_app. }
  split; [done|]. split.
  - intros r. by rewrite Ht.
  - cbn. rewrite (join_nil_2 (taken c c <$> seq 0 (length (heap c)))); [done|].
    apply Forall_fmap, Forall_forall. intros r _. apply Ht.
Qed.

Lemma shifted_trans c c1 c2 e1 e2 :
  shifted c c1 e1 -> shifted c1 c2 e2 -> shifted c c2 (e1 ++ e2).
Proof.
  intros (Hn1 & Hs1 & Hp1) (Hn2 & Hs2 & Hp2).
  assert (forall r, taken c c2 r = taken c c1 r ++ taken c1 c2 r) as Ht.
  { intros r. apply taken_app. rewrite <- app_assoc, <- Hs2. apply Hs1. }
  split; [congruence|]. split.
  - intros r. rewrite Ht, <- app_assoc, <- Hs2. apply Hs1.
  - rewrite fetched_app, Hp1, Hp2, Hn1, <- fmap_app. apply fmap_Permutation.
    rewrite (list_fmap_ext (taken c c2) (fun r => taken c c1 r ++ taken c1 c2 r))
      by (intros; apply Ht).
    symmetry. apply join_fmap_app.
Qed.

(** Array [r] loses its first [k] tiles, and their urls are downloaded. *)
Lemma shifted_claimed k r c c' e :
  heap c' = <[r := drop k (deref c r)]> (heap c) ->
  fetched e = TileManager.url <$> take k (deref c r) ->
  shifted c c' e.
Proof.
  intros Hh He.
  assert (forall r', taken c c' r' = if decide (r' = r) then take k (deref c r) else [])
    as Ht.
  { intros r'. apply taken_app. unfold deref. rewrite Hh. case_decide as Hr; subst.
    - destruct (decide (r < length (heap c))%nat).
      + rewrite list_lookup_insert_eq by done. cbn. by rewrite take_drop.
      + rewrite list_insert_ge by lia. rewrite lookup_ge_None_2 by lia. cbn.
        by rewrite take_nil.
    - by rewrite list_lookup_insert_ne. }
  split; [by rewrite Hh, length_insert|]. split.
  - intros r'. rewrite Ht. unfold deref. rewrite Hh. case_decide as Hr; subst.
    + destruct (decide (r < length (heap c))%nat).
      * rewrite list_lookup_insert_eq by done. cbn. by rewrite take_drop.
      * rewrite list_insert_ge by lia. rewrite lookup_ge_None_2 by lia. cbn.
        by rewrite take_nil.
    + by rewrite list_lookup_insert_ne.
  - rewrite He. f_equiv.
    rewrite (list_fmap_ext _ (fun r' => if decide (r' = r) then take k (deref c r) else [])
               (seq 0 (length (heap c)))) by (intros; apply Ht).
    rewrite join_fmap_single. case_decide; [done|].
    unfold deref. rewrite lookup_ge_None_2 by lia. cbn. by rewrite take_nil.
Qed.

Lemma shifted_same c c' e : heap c' = heap c -> fetched e = [] -> shifted c c' e.
Proof.
  intros Hh He. apply (shifted_claimed 0 0 c c' e); [|by rewrite He, take_0].
  rewrite Hh, drop_0. unfold deref.
  destruct (heap c !! 0%nat) as [l|] eqn:Hl; cbn.
  - by rewrite list_insert_id.
  - rewrite list_insert_ge; [done|]. by apply lookup_ge_None_1.
Qed.

Lemma step_shifted l c c' e :
  l <> ClickSave -> step l c = Some (c', e) -> shifted c c' e.
Proof.
  intros Hl Hs. step_cases l c Hs Hi; try done.
  all: try (apply shifted_same; [done|]; cbn; by repeat case_bool_decide).
  all: eapply shifted_claimed; [reflexivity|];
    rewrite ?fetched_app, ?fetched_cons_fetches, ?fetched_fetches; done.
Qed.

Lemma run_shifted ls c c' e :
  ClickSave ∉ ls -> run ls c = Some (c', e) -> shifted c c' e.
Proof.
  revert c e. induction ls as [|l ls IH]; intros c e Hls Hrun; cbn in Hrun.
  - simplify_eq. apply shifted_refl.
  - destruct (step l c) as [[c1 e1]|] eqn:Hs; [|done].
    destruct (run ls c1) as [[c2 e2]|] eqn:Hr; [|done]. simplify_eq.
    apply not_elem_of_cons in Hls as [Hl Hls].
    assert (l <> ClickSave) as Hl' by congruence.
    eapply shifted_trans; [by eapply step_shifted|by eapply IH].
Qed.

Lemma _saveTiles_confirm_shifted r c c' e :
  _saveTiles_confirm r c = (tt, c', e) -> shifted c c' e.
Proof.
  rewrite _saveTiles_confirm_eq. destruct (confirm (options c)).
  - intros ?; simplify_eq. by apply shifted_same.
  - rewrite successCallback_any. intros ?; simplify_eq.
    eapply shifted_claimed; [reflexivity|]. by rewrite fetched_cons_fetches.
Qed.

(** *** When a worker loop ends *)

Lemma inflight_fmap_Looping r (l : list TileManager.TileInfo) :
  inflight is_Looping (Downloading r <$> l) = 0.
Proof. unfold inflight. induction l; cbn in *; lia. Qed.

Lemma step_loops_end l c c' e :
  l <> ClickSave -> step l c = Some (c', e) ->
  loops c' < loops c <->
  (exists i tiles,
     l = Microtask i /\ pending c !! i = Some (Looping tiles) /\ deref c tiles = []) \/
  (exists i tiles tile,
     l = Reject i /\ pending c !! i = Some (Downloading tiles tile)).
Proof.
  intros Hl Hs.
  pose proof (inflight_nonneg is_Downloading (pending c)).
  pose proof (inflight_nonneg is_Looping (pending c)).
  step_cases l c Hs Hi; try done.
  all: unfold loops; rewrite ?pending_claimed; cbn;
    rewrite ?inflight_app, ?inflight_singleton, ?inflight_fmap_Downloading,
      ?inflight_fmap_Looping, ?(inflight_delete _ _ _ _ Hi), ?length_take; cbn.
  all: split; [intros Hlt|intros [(? & ? & ? & ? & ?)|(? & ? & ? & ? & ?)]];
    simplify_eq; try lia.
  - change (deref (with_pending ?p ?g) ?r) with (deref g r) in Hlt.
    destruct (deref c tiles) eqn:Hd; cbn in Hlt; [|lia].
    left. by eexists _, _.
  - change (deref (with_pending ?p ?g) ?r) with (deref g r).
    match goal with Hd : deref c tiles = [] |- _ => rewrite Hd end. cbn. lia.
  - right. by eexists _, _, _.
Qed.

(** *** The gate changes no status *)

Lemma _saveTiles_confirm_status r c c' e :
  _saveTiles_confirm r c = (tt, c', e) ->
  status c' = status c /\ fired "saveend" e = [].
Proof.
  rewrite _saveTiles_confirm_eq. destruct (confirm (options c)).
  - intros ?; by simplify_eq.
  - rewrite successCallback_any. intros ?; simplify_eq. split; [done|].
    by plain_fetches.
Qed.

(** ** The claims *)

(** C1, as amended. A save run is alone when it is requested while no download,
    no save and no loader loop is under way, and while only its own
    confirmation callback is called; it lasts up to the next save request.
    Throughout such a run [lengthSaved <= lengthLoaded <= lengthToBeSaved]:
    the target is the one fixed at the reset; every tile saved or being saved
    has been loaded; every tile loaded or being downloaded has left the work
    list; and each status record handed to a listener or a hook on the way
    is in the same order. A step adds one to [lengthLoaded] when it is the
    fulfilment of a download and leaves it otherwise, adds one to
    [lengthSaved] when it is the fulfilment of a save and leaves it
    otherwise, and a save waits only for a tile whose download was fulfilled,
    with the blob it was fulfilled with. *)
Theorem counters_ordered c0 c1 e1 ls c e :
  settled c0 ->
  _saveTiles c0 = (Returned, c1, e1) ->
  ClickSave ∉ ls ->
  own_callbacks (_tilesforSave (status c1)) ls c1 = true ->
  run ls c1 = Some (c, e) ->
  lengthToBeSaved (status c) = lengthToBeSaved (status c1) /\
  lengthSaved (status c) <= lengthLoaded (status c) <= lengthToBeSaved (status c) /\
  lengthSaved (status c) + inflight is_Saving (pending c) <= lengthLoaded (status c) /\
  lengthLoaded (status c) + inflight is_Downloading (pending c)
    + Z.of_nat (length (deref c (_tilesforSave (status c))))
    <= lengthToBeSaved (status c) /\
  Forall (ordered (lengthToBeSaved (status c1))) (observed (e1 ++ e)) /\
  (forall l c' e',
     l <> ClickSave -> step l c = Some (c', e') ->
     lengthLoaded (status c')
       = lengthLoaded (status c) + (if download_fulfilled l c then 1 else 0) /\
     lengthSaved (status c')
       = lengthSaved (status c) + (if save_fulfilled l c then 1 else 0) /\
     (forall tile blob,
        Saving tile blob ∈ pending c' ->
        Saving tile blob ∈ pending c \/
        exists i tiles,
          l = Fulfil i (VBlob blob) /\
          pending c !! i = Some (Downloading tiles tile))).
Proof.
  intros Hq Hsave Hls Hown Hrun.
  destruct (_saveTiles_Returned _ _ _ Hsave) as (r & c' & Hreset & Hconfirm).
  destruct (_saveTiles_reset_inv _ _ _ _ Hq Hreset) as [Hinv _].
  destruct (_saveTiles_confirm_inv _ _ _ _ _ Hinv Hconfirm) as [Hinv1 Hobs1].
  rewrite (inv_ref _ _ _ Hinv1) in Hown.
  pose proof (run_inv_run _ _ _ _ _ _ Hinv1 Hls Hown Hrun) as Hinv2.
  pose proof (run_observed _ _ _ _ _ _ Hinv1 Hls Hown Hrun) as Hobs2.
  pose proof (run_inv_ordered _ _ _ Hinv2) as (Htot & Hsl & Hln).
  destruct Hinv1 as [_ Htot1 _ _ _ _ _]. destruct Hinv2 as [Href _ _ _ Hload _ Hsaved].
  rewrite Href, Htot, Htot1. repeat split; try (done || lia).
  - rewrite observed_app. by apply Forall_app.
  - by apply (step_counters l c c'0 e').
  - by apply (step_counters l c c'0 e').
  - by apply (step_counters l c c'0 e').
Qed.

(** C2, as amended. When the gate of a save run passes, at once without a
    hook or when the hook calls back, [successCallback] starts the loaders:
    [min(tileCount, parallel)] worker loops more, which claim the first
    tiles of the list, one each, [tileCount] being the length of the list
    then, which at the reset is [lengthToBeSaved].  A loader ends when it
    finds the list empty and claims the first tile otherwise; the loop of a
    fulfilled download is queued again and runs the loader.  Whatever else is
    under way, every array only loses first tiles, and the urls downloaded
    are those of the tiles lost, each once: no tile is claimed twice.  A step
    ends a worker loop exactly when it is a loader that finds its list empty
    or the rejection of a download.  In a run alone the urls downloaded, in
    the order of the claims, followed by the tiles that remain, are the work
    list of the reset. *)
Theorem worker_loops c0 r cr c1 e1 ls c e :
  _saveTiles_reset c0 = (inr r, cr, []) ->
  _saveTiles_confirm r cr = (tt, c1, e1) ->
  ClickSave ∉ ls ->
  run ls c1 = Some (c, e) ->
  let launch (g : Control) :=
    let tileCount := Z.of_nat (length (deref g r)) in
    let n := Z.to_nat (Z.min tileCount (parallel (options g))) in
    successCallback r g =
      (tt, claimed n r g,
       fire "savestart" (Some (status g))
         :: ((fun t => downloadTile (TileManager.url t)) <$> take n (deref g r))) /\
    (0 <= parallel (options g) ->
     loops (claimed n r g) = loops g + Z.min tileCount (parallel (options g))) in
  (launch cr /\
   Z.of_nat (length (deref cr r)) = lengthToBeSaved (status cr) /\
   (confirm (options c0) = false -> successCallback r cr = (tt, c1, e1))) /\
  (launch c /\
   forall i, pending c !! i = Some (ConfirmingSave r) ->
     step (ProceedSave i) c = Some (let '(_, c', e') := successCallback r c in (c', e'))) /\
  loader r c =
    match deref c r with
    | [] => (tt, c, [])
    | tile :: rest =>
        (tt, with_pending (pending c ++ [Downloading r tile])
               (with_heap (<[r := rest]> (heap c)) c),
         [downloadTile (TileManager.url tile)])
    end /\
  (forall i tile blob, pending c !! i = Some (Downloading r tile) ->
     exists c' e', step (Fulfil i (VBlob blob)) c = Some (c', e') /\
       pending c' = delete i (pending c) ++ [Saving tile blob; Looping r]) /\
  (forall i, pending c !! i = Some (Looping r) ->
     step (Microtask i) c =
     Some (let '(_, c', e') := loader r (with_pending (delete i (pending c)) c) in (c', e'))) /\
  shifted cr c (e1 ++ e) /\
  (forall l c' e',
     l <> ClickSave -> step l c = Some (c', e') ->
     loops c' < loops c <->
     (exists i tiles,
        l = Microtask i /\ pending c !! i = Some (Looping tiles) /\
        deref c tiles = []) \/
     (exists i tiles tile,
        l = Reject i /\ pending c !! i = Some (Downloading tiles tile))) /\
  (settled c0 -> own_callbacks r ls c1 = true ->
   fetched (e1 ++ e) ++ (TileManager.url <$> deref c r) = TileManager.url <$> deref cr r).
Proof.
  intros Hreset Hconfirm Hls Hrun launch.
  assert (forall g, launch g) as Hlaunch.
  { intros g. split; [by apply successCallback_any|].
    intros Hp. unfold loops. rewrite pending_claimed.
    rewrite !inflight_app, inflight_fmap_Downloading, inflight_fmap_Looping, length_take.
    lia. }
  assert (options cr = options c0 /\
          Z.of_nat (length (deref cr r)) = lengthToBeSaved (status cr) /\
          (r < length (heap cr))%nat) as (Hopts & Hlen & Hval).
  { revert Hreset. rewrite _saveTiles_reset_eq. destruct (requestedZoomlevels c0); [done|].
    cbn. intros ?; simplify_eq. unfold deref. cbn.
    rewrite lookup_app_r, Nat.sub_diag, length_app by done. cbn. split; [done|]. lia. }
  split; [|split; [|split; [apply loader_eq|split; [|split; [|split; [|split]]]]]].
  - split; [apply Hlaunch|]. split; [done|].
    intros Hno. rewrite _saveTiles_confirm_eq, Hopts, Hno in Hconfirm. exact Hconfirm.
  - split; [apply Hlaunch|]. intros i Hi. unfold step. rewrite Hi.
    by destruct (successCallback r c) as [[[] ?] ?].
  - intros i tile blob Hi. unfold step. rewrite Hi.
    unfold _loadTile_then, _saveTile, fire_status, settle, set_status, spawn, perform,
      this, mbind, M_bind, mret, M_ret. cbn.
    case_bool_decide; eexists _, _; (split; [done|]); cbn; by rewrite <- app_assoc.
  - intros i Hi. unfold step. rewrite Hi. unfold mbind, M_bind, settle.
    by destruct (loader r _) as [[[] ?] ?].
  - eapply shifted_trans; [by eapply _saveTiles_confirm_shifted|by eapply run_shifted].
  - intros l c' e'. apply step_loops_end.
  - intros Hq Hown.
    destruct (_saveTiles_reset_inv _ _ _ _ Hq Hreset) as [Hinv Hq1].
    destruct (_saveTiles_confirm_inv _ _ _ _ _ Hinv Hconfirm) as [Hinv1 _].
    rewrite fetched_app, <- app_assoc, (run_fetched _ _ _ _ _ _ Hinv1 Hls Hown Hrun).
    revert Hconfirm.
    rewrite _saveTiles_confirm_eq. destruct (confirm (options cr)).
    + intros ?; by simplify_eq.
    + rewrite successCallback_eq by done. intros ?; simplify_eq. cbn.
      by rewrite fetched_fetches, deref_claimed, <- fmap_app, take_drop.
Qed.

(** C3, as amended. After a save request the all-saved event has fired once
    when [lengthSaved] has reached a [lengthToBeSaved] above zero and not at
    all before, so at most once, and never in a run without tiles; a step
    fires it exactly when it is the fulfilment of a [saveTile] that takes
    [lengthSaved] to [lengthToBeSaved]; and when the cached [storagesize] is
    0 that step ends by starting one recount, whose fulfilment sets
    [storagesize] and fires one storage-size event, and whose rejection
    changes and fires nothing. *)
Theorem all_saved_once c0 c1 e1 ls c e :
  _saveTiles c0 = (Returned, c1, e1) ->
  ClickSave ∉ ls ->
  run ls c1 = Some (c, e) ->
  Z.of_nat (length (fired "saveend" (e1 ++ e))) = all_saved (status c) /\
  (length (fired "saveend" (e1 ++ e)) <= 1)%nat /\
  (lengthToBeSaved (status c1) = 0 -> fired "saveend" (e1 ++ e) = []) /\
  (forall l c' e', l <> ClickSave -> step l c = Some (c', e') ->
     fired "saveend" e' <> [] <->
     exists i tile blob, l = Fulfil i VVoid /\ pending c !! i = Some (Saving tile blob) /\
       lengthSaved (status c) + 1 = lengthToBeSaved (status c)) /\
  (forall i tile blob,
     pending c !! i = Some (Saving tile blob) ->
     lengthSaved (status c) + 1 = lengthToBeSaved (status c) ->
     storagesize (status c) = 0 ->
     let s := {| _tilesforSave := _tilesforSave (status c);
                 storagesize := 0;
                 lengthToBeSaved := lengthToBeSaved (status c);
                 lengthSaved := lengthSaved (status c) + 1;
                 lengthLoaded := lengthLoaded (status c) |} in
     step (Fulfil i VVoid) c =
     Some (with_pending (delete i (pending c) ++ [Counting]) (with_status s c),
           [fire "savetileend" (Some s); fire "saveend" (Some s); getStorageLength])) /\
  (forall i numberOfKeys,
     pending c !! i = Some Counting ->
     let s := {| _tilesforSave := _tilesforSave (status c);
                 storagesize := numberOfKeys;
                 lengthToBeSaved := lengthToBeSaved (status c);
                 lengthSaved := lengthSaved (status c);
                 lengthLoaded := lengthLoaded (status c) |} in
     step (Fulfil i (VNumber numberOfKeys)) c =
     Some (with_pending (delete i (pending c)) (with_status s c),
           [fire "storagesize" (Some s)])) /\
  (forall i,
     pending c !! i = Some Counting ->
     step (Reject i) c = Some (with_pending (delete i (pending c)) c, [])).
Proof.
  intros Hsave Hls Hrun.
  destruct (_saveTiles_Returned _ _ _ Hsave) as (r & cr & Hreset & Hconfirm).
  destruct (_saveTiles_all_saved _ _ _ _ Hreset) as (Hzero & Hsaved0 & _).
  destruct (_saveTiles_confirm_status _ _ _ _ Hconfirm) as [Hst He1].
  assert (0 <= lengthSaved (status c1)) as Hpos by (rewrite Hst; lia).
  destruct (run_all_saved _ _ _ _ Hpos Hls Hrun) as [_ Hcount].
  assert (Z.of_nat (length (fired "saveend" (e1 ++ e))) = all_saved (status c)) as Hn.
  { rewrite fired_app, He1. cbn [app]. rewrite Hcount, Hst, Hzero. lia. }
  assert (lengthToBeSaved (status c) = lengthToBeSaved (status c1)) as Htot.
  { clear -Hls Hrun. revert c1 e Hls Hrun.
    induction ls as [|l ls IH]; intros c1 e Hls Hrun; cbn in Hrun; [by simplify_eq|].
    destruct (step l c1) as [[c2 e2]|] eqn:Hs; [|done].
    destruct (run ls c2) as [[c3 e3]|] eqn:Hr; [|done]. simplify_eq.
    apply not_elem_of_cons in Hls as [Hl Hls].
    rewrite (IH _ _ Hls Hr).
    assert (l <> ClickSave) as Hl' by congruence.
    step_cases l c1 Hs Hi; try done. }
  split; [exact Hn|]. split; [|split; [|split; [|split; [|split]]]].
  - unfold all_saved in Hn. case_bool_decide; lia.
  - intros Hnone. apply length_zero_iff_nil. unfold all_saved in Hn.
    case_bool_decide; lia.
  - intros l c' e' Hl Hs. split.
    + intros Hfired. step_cases l c Hs Hi; try done.
      all: try (exfalso; apply Hfired; unfold claimed; by plain_fetches).
      all: by eexists _, _, _.
    + intros (i & tile & blob & -> & Hi & Heq). unfold step in Hs. rewrite Hi in Hs.
      exec_in Hs. case_bool_decide; [|done]. by case_bool_decide; simplify_eq.
  - intros i tile blob Hi Heq Hzero' s. unfold step. rewrite Hi.
    unfold discard, _saveTile_then, setStorageSize, fire_status, settle, set_status,
      spawn, perform, this, mbind, M_bind, mret, M_ret. cbn.
    rewrite bool_decide_eq_true_2 by done. cbn. rewrite Hzero'. cbn. by subst s.
  - intros i numberOfKeys Hi s. unfold step. rewrite Hi. reflexivity.
  - intros i Hi. unfold step. rewrite Hi. reflexivity.
Qed.

Lemma collectTiles_eq c zs :
  collectTiles c zs =
  mjoin (tilesAt c (default (Leaflet.getBounds (_map c)) (bounds (options c))) <$> zs).
Proof.
  unfold collectTiles. generalize (default (Leaflet.getBounds (_map c)) (bounds (options c))).
  intros lb. rewrite <- (app_nil_l (mjoin _)). generalize (@nil TileManager.TileInfo).
  induction zs as [|zoom zs IH]; intros acc; cbn.
  - by rewrite app_nil_r.
  - by rewrite IH, app_assoc.
Qed.

Lemma zoomRange_sorted currentZoom maxZoom :
  StronglySorted Z.lt (zoomRange currentZoom maxZoom).
Proof.
  unfold zoomRange. generalize (Z.to_nat (maxZoom - currentZoom + 1)). intros k.
  generalize 0%nat. induction k as [|k IH]; intros i; cbn; constructor; [apply IH|].
  apply Forall_fmap, Forall_forall. intros j Hj%elem_of_seq. cbn. lia.
Qed.

Lemma zoomRange_lookup currentZoom maxZoom (i : nat) :
  zoomRange currentZoom maxZoom !! i =
  if bool_decide (currentZoom + Z.of_nat i <= maxZoom)
  then Some (currentZoom + Z.of_nat i) else None.
Proof.
  unfold zoomRange. rewrite list_lookup_fmap. case_bool_decide.
  - by rewrite lookup_seq_lt by lia.
  - by rewrite lookup_seq_ge by lia.
Qed.

(** C4, as amended. The work list of a save request is, for each requested
    zoom level, what the layer returns for the rectangle of the projected
    north-west and south-east corners at that level, concatenated in the order
    of the list of levels: ascending from the current zoom to [maxZoom] when
    saving what is seen, and otherwise the order in which [zoomlevels] lists
    them (or the current zoom alone when it lists none). *)
Theorem tile_work_list c0 r cr e :
  _saveTiles_reset c0 = (inr r, cr, e) ->
  let latlngBounds := default (Leaflet.getBounds (_map c0)) (bounds (options c0)) in
  let currentZoom := Leaflet.getZoom (_map c0) in
  exists levels,
    requestedZoomlevels c0 = inr levels /\
    deref cr r =
      mjoin ((fun zoom =>
                getTileUrls (_baseLayer c0)
                  (Leaflet.bounds
                     (Leaflet.project (_map c0) (Leaflet.getNorthWest latlngBounds) zoom)
                     (Leaflet.project (_map c0) (Leaflet.getSouthEast latlngBounds) zoom))
                  zoom) <$> levels) /\
    (saveWhatYouSee (options c0) = true ->
       StronglySorted Z.lt levels /\
       forall i : nat, levels !! i =
         if bool_decide (currentZoom + Z.of_nat i <= maxZoom (options c0))
         then Some (currentZoom + Z.of_nat i) else None) /\
    (saveWhatYouSee (options c0) = false ->
       levels = default [currentZoom] (zoomlevels (options c0))).
Proof.
  rewrite _saveTiles_reset_eq. intros Hreset latlngBounds currentZoom.
  destruct (requestedZoomlevels c0) as [m|levels] eqn:Hz; [done|].
  cbn in Hreset. simplify_eq. exists levels. split; [done|]. split; [|split].
  - unfold deref. cbn. rewrite lookup_app_r, Nat.sub_diag by done. cbn.
    by rewrite collectTiles_eq.
  - intros Hsee. unfold requestedZoomlevels in Hz. rewrite Hsee in Hz.
    case_bool_decide; simplify_eq. split; [apply zoomRange_sorted|].
    intros i. apply zoomRange_lookup.
  - intros Hsee. unfold requestedZoomlevels in Hz. rewrite Hsee in Hz. by simplify_eq.
Qed.

(** C5. A save request that passes the zoom check replaces the status record
    by one with both counters at 0, [lengthToBeSaved] the length of the work
    list, [_tilesforSave] the array of the work list, a new one, and the
    [storagesize] of the record before; the record is the same when
    [_saveTiles] returns, with or without a confirmation hook. *)
Theorem status_reset c0 c1 e1 :
  _saveTiles c0 = (Returned, c1, e1) ->
  exists levels cr,
    requestedZoomlevels c0 = inr levels /\
    _saveTiles_reset c0 = (inr (length (heap c0)), cr, []) /\
    heap c0 !! length (heap c0) = None /\
    deref cr (length (heap c0)) = collectTiles c0 levels /\
    status cr =
      {| lengthLoaded := 0;
         lengthToBeSaved := Z.of_nat (length (collectTiles c0 levels));
         lengthSaved := 0;
         _tilesforSave := length (heap c0);
         storagesize := storagesize (status c0) |} /\
    status c1 = status cr.
Proof.
  intros Hsave. destruct (_saveTiles_Returned _ _ _ Hsave) as (r & cr & Hreset & Hconfirm).
  pose proof Hreset as Hreset'. rewrite _saveTiles_reset_eq in Hreset.
  destruct (requestedZoomlevels c0) as [m|levels] eqn:Hz; [done|].
  cbn in Hreset. simplify_eq. eexists levels, _. split; [done|]. split; [done|].
  split; [by apply lookup_ge_None_2|]. split; [|split; [done|]].
  - unfold deref. cbn. by rewrite lookup_app_r, Nat.sub_diag by done.
  - by eapply _saveTiles_confirm_status.
Qed.

Lemma zoom_floor_throw c :
  saveWhatYouSee (options c) = true ->
  Leaflet.getZoom (_map c) < 5 ->
  _saveTiles c = (Thrown "It's not possible to save with zoom below level 5.", c, []).
Proof.
  intros Hsee Hzoom. unfold _saveTiles, mbind, M_bind, mret, M_ret.
  rewrite _saveTiles_reset_eq. unfold requestedZoomlevels. rewrite Hsee.
  by rewrite bool_decide_eq_true_2 by done.
Qed.

(** C6. Saving what is seen at a zoom below 5 throws before anything else
    happens: the control is unchanged, nothing is downloaded, no effect at
    all takes place. *)
Theorem zoom_floor c :
  saveWhatYouSee (options c) = true ->
  Leaflet.getZoom (_map c) < 5 ->
  _saveTiles c = (Thrown "It's not possible to save with zoom below level 5.", c, []) /\
  step ClickSave c = Some (c, []).
Proof.
  intros Hsee Hzoom. pose proof (zoom_floor_throw c Hsee Hzoom) as Hthrow.
  split; [done|]. unfold step, discard, mbind, M_bind, mret, M_ret. by rewrite Hthrow.
Qed.

(** C7. A removal that proceeds, at once without a hook or when the hook
    calls back, calls [truncate]; when that is fulfilled [storagesize] is set
    to 0, the other fields of the status stay as they are, and the
    tiles-removed event is fired, then the storage-size event. *)
Theorem removal c :
  (confirmRemoval (options c) = false ->
     _rmTiles c = (tt, with_pending (pending c ++ [Truncating]) c, [truncate])) /\
  (forall i, pending c !! i = Some ConfirmingRemoval ->
     step (ProceedRemoval i) c
     = Some (with_pending (pending c ++ [Truncating]) c, [truncate])) /\
  (forall i, pending c !! i = Some Truncating ->
     let s := {| _tilesforSave := _tilesforSave (status c);
                 storagesize := 0;
                 lengthToBeSaved := lengthToBeSaved (status c);
                 lengthSaved := lengthSaved (status c);
                 lengthLoaded := lengthLoaded (status c) |} in
     step (Fulfil i VVoid) c
     = Some (with_pending (delete i (pending c)) (with_status s c),
             [fire "tilesremoved" None; fire "storagesize" (Some s)])).
Proof.
  split; [|split].
  - intros Hno. unfold _rmTiles, rm_successCallback, this, perform, spawn, mbind, M_bind.
    cbn. by rewrite Hno.
  - intros i Hi. unfold step. by rewrite Hi.
  - intros i Hi s. unfold step. by rewrite Hi.
Qed.

(** C8. [setStorageSize] resolves to the cached [storagesize] when it is not 0,
    without a recount, a change or an event; otherwise it calls
    [getStorageLength]: fulfilled, the count becomes [storagesize], the
    storage-size event is fired and the promise resolves to the count;
    rejected, the promise resolves to 0 with nothing changed. *)
Theorem storage_size_refresh c :
  (storagesize (status c) <> 0 ->
     setStorageSize c = (resolved (storagesize (status c)), c, [])) /\
  (storagesize (status c) = 0 ->
     setStorageSize c
     = (awaiting, with_pending (pending c ++ [Counting]) c, [getStorageLength])) /\
  (forall numberOfKeys,
     let s := {| _tilesforSave := _tilesforSave (status c);
                 storagesize := numberOfKeys;
                 lengthToBeSaved := lengthToBeSaved (status c);
                 lengthSaved := lengthSaved (status c);
                 lengthLoaded := lengthLoaded (status c) |} in
     setStorageSize_settled (Some numberOfKeys) c
     = (numberOfKeys, with_status s c, [fire "storagesize" (Some s)])) /\
  setStorageSize_settled None c = (0, c, []) /\
  (forall i, pending c !! i = Some Counting ->
     step (Reject i) c = Some (with_pending (delete i (pending c)) c, [])).
Proof.
  unfold setStorageSize, this, perform, spawn, mbind, M_bind, mret, M_ret. cbn.
  repeat split.
  - intros Hs. by rewrite bool_decide_eq_true_2.
  - intros Hs. rewrite bool_decide_eq_false_2; [done|]. by intros [].
  - intros i Hi. unfold step. by rewrite Hi.
Qed.

(** C9, as amended. Without a confirmation hook the request runs
    [successCallback] at once: before it returns the run-started event is
    fired and the first [min(tileCount, parallel)] downloads are requested,
    the hook is not called and no callback is kept. With a hook, the hook is
    called with the status and the callback is kept; when no download, no
    save and no loader loop is under way at the request, and as long as no
    confirmation callback is called, in what follows up to the next save
    request, nothing is downloaded, no run-started event is fired, the work
    list is whole and the counters are those of the reset. *)
Theorem confirmation_gate c0 r cr :
  _saveTiles_reset c0 = (inr r, cr, []) ->
  (confirm (options c0) = false ->
     let n := Z.to_nat (Z.min (Z.of_nat (length (deref cr r))) (parallel (options c0))) in
     _saveTiles_confirm r cr =
       (tt, claimed n r cr,
        fire "savestart" (Some (status cr))
          :: ((fun t => downloadTile (TileManager.url t)) <$> take n (deref cr r))) /\
     pending (claimed n r cr) = pending c0 ++ (Downloading r <$> take n (deref cr r))) /\
  (confirm (options c0) = true ->
     let c1 := with_pending (pending cr ++ [ConfirmingSave r]) cr in
     _saveTiles_confirm r cr = (tt, c1, [call_confirm (status cr)]) /\
     forall ls c e,
       settled c0 ->
       ClickSave ∉ ls -> (forall i, ProceedSave i ∉ ls) -> run ls c1 = Some (c, e) ->
       fetched e = [] /\ fired "savestart" e = [] /\
       inflight is_Downloading (pending c) = 0 /\
       deref c r = deref cr r /\
       _tilesforSave (status c) = r /\
       lengthLoaded (status c) = 0 /\ lengthSaved (status c) = 0 /\
       lengthToBeSaved (status c) = Z.of_nat (length (deref cr r))).
Proof.
  intros Hreset.
  assert (options cr = options c0 /\ pending cr = pending c0) as [Hopts Hpend].
  { revert Hreset. rewrite _saveTiles_reset_eq. destruct (requestedZoomlevels c0); [done|].
    cbn. by intros ?; simplify_eq. }
  destruct (_saveTiles_all_saved _ _ _ _ Hreset) as (_ & Hsaved & Hloaded).
  rewrite _saveTiles_confirm_eq, Hopts. split; intros ->.
  - intros n. rewrite successCallback_any, Hopts. split; [done|].
    by rewrite pending_claimed, Hpend.
  - intros c1. split; [done|]. intros ls c e Hq Hls Hp Hrun.
    destruct (_saveTiles_reset_inv _ _ _ _ Hq Hreset) as [Hinv Hq1].
    assert (forallb waiting (pending c1) = true) as Hw.
    { subst c1. cbn. by rewrite forallb_app, Hq1. }
    destruct (run_waiting _ _ _ _ Hw Hls Hp Hrun)
      as (Hw' & Hl & Hs & Ht & Hr & Hh & Hf & Hst).
    destruct Hinv as [Href Htot _ _ _ _ _].
    repeat split; try done.
    + by apply inflight_waiting.
    + unfold deref. by rewrite Hh.
    + by rewrite Hr.
    + by rewrite Hl.
    + by rewrite Hs.
    + by rewrite Ht.
Qed.


(** ** Beyond the claims *)

(** *** Events and counters *)

Lemma step_progress l c c' e :
  l <> ClickSave -> step l c = Some (c', e) ->
  lengthToBeSaved (status c') = lengthToBeSaved (status c) /\
  _tilesforSave (status c') = _tilesforSave (status c) /\
  lengthLoaded (status c') =
    lengthLoaded (status c) + Z.of_nat (length (fired "loadtileend" e)) /\
  lengthSaved (status c') =
    lengthSaved (status c) + Z.of_nat (length (fired "savetileend" e)) /\
  length (saved_tiles e) = length (fired "loadtileend" e).
Proof.
  intros Hl Hs. step_cases l c Hs Hi; try done.
  all: unfold claimed; plain_fetches; cbn; repeat split; try (done || lia).
Qed.

Lemma run_progress ls c c' e :
  ClickSave ∉ ls -> run ls c = Some (c', e) ->
  lengthToBeSaved (status c') = lengthToBeSaved (status c) /\
  _tilesforSave (status c') = _tilesforSave (status c) /\
  lengthLoaded (status c') =
    lengthLoaded (status c) + Z.of_nat (length (fired "loadtileend" e)) /\
  lengthSaved (status c') =
    lengthSaved (status c) + Z.of_nat (length (fired "savetileend" e)) /\
  length (saved_tiles e) = length (fired "loadtileend" e).
Proof.
  revert c e. induction ls as [|l ls IH]; intros c e Hls Hrun; cbn in Hrun.
  - simplify_eq. cbn. repeat split; lia.
  - destruct (step l c) as [[c1 e1]|] eqn:Hs; [|done].
    destruct (run ls c1) as [[c2 e2]|] eqn:Hr; [|done]. simplify_eq.
    apply not_elem_of_cons in Hls as [Hl Hls].
    assert (l <> ClickSave) as Hl' by congruence.
    destruct (step_progress _ _ _ _ Hl' Hs) as (? & ? & ? & ? & ?).
    destruct (IH _ _ Hls Hr) as (? & ? & ? & ? & ?).
    rewrite !fired_app, saved_tiles_app, !length_app. repeat split; try congruence; lia.
Qed.

(** What a save request that returns leaves: the array of the work list is
    new, the status is the reset one, and either the hook holds the callback
    or the loaders have claimed their first tiles. *)
Lemma _saveTiles_shape c c1 e1 :
  _saveTiles c = (Returned, c1, e1) ->
  exists levels,
    requestedZoomlevels c = inr levels /\
    let r := length (heap c) in
    let tiles := collectTiles c levels in
    let cr :=
      with_status {| lengthLoaded := 0;
                     lengthToBeSaved := Z.of_nat (length tiles);
                     lengthSaved := 0;
                     _tilesforSave := r;
                     storagesize := storagesize (status c) |}
        (with_heap (heap c ++ [tiles]) c) in
    let n := Z.to_nat (Z.min (Z.of_nat (length tiles)) (parallel (options c))) in
    _saveTiles_reset c = (inr r, cr, []) /\
    deref cr r = tiles /\
    (confirm (options c) = true /\
       c1 = with_pending (pending c ++ [ConfirmingSave r]) cr /\
       e1 = [call_confirm (status cr)]
     \/
     confirm (options c) = false /\
       c1 = claimed n r cr /\
       e1 = fire "savestart" (Some (status cr))
              :: ((fun t => downloadTile (TileManager.url t)) <$> take n tiles)).
Proof.
  intros Hsave. destruct (_saveTiles_Returned _ _ _ Hsave) as (r & cr & Hreset & Hconfirm).
  pose proof Hreset as Hreset'. rewrite _saveTiles_reset_eq in Hreset.
  destruct (requestedZoomlevels c) as [m|levels] eqn:Hz; [done|].
  cbn in Hreset. simplify_eq. exists levels. split; [done|]. cbn zeta.
  split; [done|].
  assert (deref (with_heap (heap c ++ [collectTiles c levels]) c) (length (heap c))
          = collectTiles c levels) as Hd.
  { unfold deref. cbn. by rewrite lookup_app_r, Nat.sub_diag by done. }
  split; [exact Hd|].
  rewrite _saveTiles_confirm_eq in Hconfirm. cbn in Hconfirm.
  destruct (confirm (options c)).
  - left. by simplify_eq.
  - right. rewrite successCallback_any in Hconfirm.
    change (deref (with_status ?s ?c') ?r) with (deref c' r) in Hconfirm.
    rewrite Hd in Hconfirm. by simplify_eq.
Qed.

Lemma fired_other type t d : t <> type -> fired type [fire t d] = [].
Proof.
  intros Ht. unfold fired. cbn -[String.eqb].
  by rewrite (proj2 (String.eqb_neq _ _)) by done.
Qed.

Lemma _saveTiles_fresh_counters c c1 e1 :
  _saveTiles c = (Returned, c1, e1) ->
  lengthLoaded (status c1) = 0 /\ lengthSaved (status c1) = 0 /\
  (forall type, type <> "savestart"%string -> fired type e1 = []) /\
  saved_tiles e1 = [].
Proof.
  intros Hsave. destruct (_saveTiles_shape _ _ _ Hsave) as (levels & _ & Hshape).
  cbn zeta in Hshape. destruct Hshape as (_ & _ & [(_ & -> & ->)|(_ & -> & ->)]).
  - by repeat split.
  - unfold claimed. plain_fetches. repeat split; try done.
    intros type Ht. rewrite fired_cons_fetches. apply fired_other. congruence.
Qed.

(** X1. The progress events count what the counters count: in what follows a
    save request up to the next one, [lengthLoaded] is the number of
    per-tile-loaded events fired, which is also the number of calls of
    [saveTile], and [lengthSaved] is the number of per-tile-saved events. *)
Theorem progress_events c0 c1 e1 ls c e :
  _saveTiles c0 = (Returned, c1, e1) ->
  ClickSave ∉ ls ->
  run ls c1 = Some (c, e) ->
  lengthLoaded (status c) = Z.of_nat (length (fired "loadtileend" (e1 ++ e))) /\
  lengthSaved (status c) = Z.of_nat (length (fired "savetileend" (e1 ++ e))) /\
  length (saved_tiles (e1 ++ e)) = length (fired "loadtileend" (e1 ++ e)).
Proof.
  intros Hsave Hls Hrun.
  destruct (_saveTiles_fresh_counters _ _ _ Hsave) as (Hl & Hs & Hf & Ht).
  destruct (run_progress _ _ _ _ Hls Hrun) as (_ & _ & Hl' & Hs' & Ht').
  rewrite !fired_app, saved_tiles_app, !Hf, Ht by done. cbn [app length].
  repeat split; [lia|lia|done].
Qed.

(** *** The all-loaded event, and runs with a rejection *)

Lemma run_inv_start c0 c1 e1 :
  settled c0 -> _saveTiles c0 = (Returned, c1, e1) ->
  run_inv (_tilesforSave (status c1)) (lengthToBeSaved (status c1)) c1 /\
  all_loaded (status c1) = 0 /\ all_saved (status c1) = 0.
Proof.
  intros Hq Hsave.
  destruct (_saveTiles_Returned _ _ _ Hsave) as (r & cr & Hreset & Hconfirm).
  destruct (_saveTiles_reset_inv _ _ _ _ Hq Hreset) as [Hinv _].
  destruct (_saveTiles_confirm_inv _ _ _ _ _ Hinv Hconfirm) as [Hinv1 _].
  destruct (_saveTiles_fresh_counters _ _ _ Hsave) as (Hl & Hs & _ & _).
  pose proof Hinv1 as [Href Htot _ _ _ _ _]. rewrite Href, Htot. split; [done|].
  unfold all_loaded, all_saved. rewrite Hl, Hs.
  split; case_bool_decide; (lia || done).
Qed.

Lemma step_all_loaded l c c' e :
  0 <= lengthLoaded (status c) -> l <> ClickSave -> step l c = Some (c', e) ->
  0 <= lengthLoaded (status c') /\
  Z.of_nat (length (fired "loadend" e)) = all_loaded (status c') - all_loaded (status c).
Proof.
  intros Hpos Hl Hs. step_cases l c Hs Hi; try done.
  all: unfold claimed, all_loaded; plain_fetches; cbn in *;
    repeat case_bool_decide; cbn; lia.
Qed.

Lemma run_all_loaded ls c c' e :
  0 <= lengthLoaded (status c) -> ClickSave ∉ ls -> run ls c = Some (c', e) ->
  0 <= lengthLoaded (status c') /\
  Z.of_nat (length (fired "loadend" e)) = all_loaded (status c') - all_loaded (status c).
Proof.
  revert c e. induction ls as [|l ls IH]; intros c e Hpos Hls Hrun; cbn in Hrun.
  - simplify_eq. cbn. lia.
  - destruct (step l c) as [[c1 e1]|] eqn:Hs; [|done].
    destruct (run ls c1) as [[c2 e2]|] eqn:Hr; [|done]. simplify_eq.
    apply not_elem_of_cons in Hls as [Hl Hls].
    assert (l <> ClickSave) as Hl' by congruence.
    rewrite fired_app, length_app, Nat2Z.inj_add.
    destruct (step_all_loaded l c c1 e1 Hpos Hl' Hs) as [Hpos1 H1].
    destruct (IH c1 e2 Hpos1 Hls Hr) as [Hpos2 H2].
    lia.
Qed.

(** X2. After a save request and up to the next one, runs at once or not,
    the all-loaded event has fired once when [lengthLoaded] has reached a
    [lengthToBeSaved] above zero and not at all before, so at most once, and
    never when the request found no tiles; a step fires it exactly when it
    is the fulfilment of a download that takes [lengthLoaded] to
    [lengthToBeSaved]. *)
Theorem all_loaded_once c0 c1 e1 ls c e :
  _saveTiles c0 = (Returned, c1, e1) ->
  ClickSave ∉ ls ->
  run ls c1 = Some (c, e) ->
  Z.of_nat (length (fired "loadend" (e1 ++ e))) = all_loaded (status c) /\
  (length (fired "loadend" (e1 ++ e)) <= 1)%nat /\
  (lengthToBeSaved (status c1) = 0 -> fired "loadend" (e1 ++ e) = []) /\
  (forall l c' e', l <> ClickSave -> step l c = Some (c', e') ->
     fired "loadend" e' <> [] <->
     exists i tiles tile blob,
       l = Fulfil i (VBlob blob) /\ pending c !! i = Some (Downloading tiles tile) /\
       lengthLoaded (status c) + 1 = lengthToBeSaved (status c)).
Proof.
  intros Hsave Hls Hrun.
  destruct (_saveTiles_fresh_counters _ _ _ Hsave) as (Hl0 & _ & Hf & _).
  assert (0 <= lengthLoaded (status c1)) as Hpos by lia.
  destruct (run_all_loaded _ _ _ _ Hpos Hls Hrun) as [_ Hloaded].
  destruct (run_progress _ _ _ _ Hls Hrun) as (Htot & _).
  assert (all_loaded (status c1) = 0) as Hal.
  { unfold all_loaded. rewrite Hl0. case_bool_decide; lia. }
  assert (Z.of_nat (length (fired "loadend" (e1 ++ e))) = all_loaded (status c)) as Hn.
  { rewrite fired_app, Hf by done. cbn [app]. lia. }
  split; [exact Hn|]. split; [|split].
  - unfold all_loaded in Hn. case_bool_decide; lia.
  - intros Hnone. apply length_zero_iff_nil. unfold all_loaded in Hn.
    case_bool_decide; lia.
  - intros l c' e' Hl Hs. split.
    + intros Hfired. step_cases l c Hs Hi; try done.
      all: try (exfalso; apply Hfired; unfold claimed; by plain_fetches).
      all: by eexists _, _, _, _.
    + intros (i & tiles & tile & blob & -> & Hi & Heq). unfold step in Hs.
      rewrite Hi in Hs. exec_in Hs. by case_bool_decide; simplify_eq.
Qed.

(** The tiles that are neither loaded, nor being downloaded, nor in the list
    any more are lost for good, and so are those neither saved nor being
    saved. *)
Lemma step_short r n d d' l c c' e :
  run_inv r n c -> own_callback r l c = true ->
  l <> ClickSave -> step l c = Some (c', e) ->
  lengthLoaded (status c) + inflight is_Downloading (pending c)
    + Z.of_nat (length (deref c r)) + d <= n ->
  lengthSaved (status c) + inflight is_Saving (pending c) + d' <= lengthLoaded (status c) ->
  lengthLoaded (status c') + inflight is_Downloading (pending c')
    + Z.of_nat (length (deref c' r)) + d <= n /\
  lengthSaved (status c') + inflight is_Saving (pending c') + d'
    <= lengthLoaded (status c').
Proof.
  intros Hinv Hown Hl Hs Hd Hd'.
  pose proof Hinv as [Href Htot Hval Htasks Hload Hpos Hsaved].
  pose proof (inflight_nonneg is_Downloading (pending c)).
  pose proof (inflight_nonneg is_Saving (pending c)).
  step_cases l c Hs Hi; try done.
  all: try (pose proof (own_callback_lookup _ _ _ _ Hown Hi); subst).
  all: try (pose proof (Forall_lookup_1 _ _ _ _ Htasks Hi) as Ht; cbn in Ht; subst).
  all: unfold claimed; cbn;
    change (deref (with_pending ?p ?c') ?r) with (deref c' r);
    rewrite ?deref_insert, ?inflight_app, ?inflight_singleton,
      ?inflight_fmap_Downloading, ?inflight_fmap_Saving,
      ?(inflight_delete _ _ _ _ Hi) by done; cbn.
  all: try (pose proof (take_drop 1 (deref c (_tilesforSave (status c)))) as Hk;
            apply (f_equal length) in Hk; rewrite length_app in Hk).
  all: try match goal with
       | |- context [take ?k (deref ?c ?r)] =>
           pose proof (take_drop k (deref c r)) as Hk';
           apply (f_equal length) in Hk'; rewrite length_app in Hk'
       end.
  all: unfold deref in *; cbn in *; rewrite ?list_lookup_insert_eq by done; cbn; lia.
Qed.

Lemma run_short r n d d' ls c c' e :
  run_inv r n c -> ClickSave ∉ ls -> own_callbacks r ls c = true ->
  run ls c = Some (c', e) ->
  lengthLoaded (status c) + inflight is_Downloading (pending c)
    + Z.of_nat (length (deref c r)) + d <= n ->
  lengthSaved (status c) + inflight is_Saving (pending c) + d' <= lengthLoaded (status c) ->
  lengthLoaded (status c') + inflight is_Downloading (pending c')
    + Z.of_nat (length (deref c' r)) + d <= n /\
  lengthSaved (status c') + inflight is_Saving (pending c') + d'
    <= lengthLoaded (status c').
Proof.
  revert c e. induction ls as [|l ls IH]; intros c e Hinv Hls Hown Hrun Hd Hd'.
  - cbn in Hrun. by simplify_eq.
  - destruct (run_cons _ _ _ _ _ _ Hls Hown Hrun)
      as (c1 & e1 & e2 & Hs & Hr & -> & Hl & Hown1 & Hls' & Hown').
    destruct (step_short _ _ _ _ _ _ _ _ Hinv Hown1 Hl Hs Hd Hd') as [Hd1 Hd1'].
    eapply IH; [|done..]. by eapply step_inv.
Qed.

Lemma no_event type es : Z.of_nat (length (fired type es)) = 0 -> fired type es = [].
Proof. intros Hn. apply length_zero_iff_nil. lia. Qed.

(** X3. In a run alone (requested while no download, no save and no loader
    loop is under way, with only its own confirmation callback called), a
    rejected download changes nothing but the loop it ends: no counter, no
    event, and the tile does not go back to the list.  From then on the run
    cannot complete: [lengthLoaded] and [lengthSaved] stay below
    [lengthToBeSaved], and neither the all-loaded nor the all-saved event is
    fired in the run, before or after. *)
Theorem rejected_download_stalls c0 c1 e1 ls c2 e2 i tiles tile ls' c e :
  settled c0 ->
  _saveTiles c0 = (Returned, c1, e1) ->
  ClickSave ∉ ls ->
  own_callbacks (_tilesforSave (status c1)) ls c1 = true ->
  run ls c1 = Some (c2, e2) ->
  pending c2 !! i = Some (Downloading tiles tile) ->
  ClickSave ∉ ls' ->
  own_callbacks (_tilesforSave (status c1)) (Reject i :: ls') c2 = true ->
  run (Reject i :: ls') c2 = Some (c, e) ->
  step (Reject i) c2 = Some (with_pending (delete i (pending c2)) c2, []) /\
  lengthSaved (status c) <= lengthLoaded (status c) < lengthToBeSaved (status c) /\
  fired "loadend" (e1 ++ e2 ++ e) = [] /\
  fired "saveend" (e1 ++ e2 ++ e) = [].
Proof.
  intros Hq Hsave Hls Hown Hrun Hi Hls' Hown' Hrun'.
  destruct (run_inv_start _ _ _ Hq Hsave) as (Hinv1 & Hl0 & Hs0).
  destruct (_saveTiles_fresh_counters _ _ _ Hsave) as (Hld0 & Hsv0 & Hf & _).
  set (r := _tilesforSave (status c1)) in *. set (n := lengthToBeSaved (status c1)) in *.
  pose proof (run_inv_run _ _ _ _ _ _ Hinv1 Hls Hown Hrun) as Hinv2.
  assert (step (Reject i) c2 = Some (with_pending (delete i (pending c2)) c2, [])) as Hs.
  { unfold step. by rewrite Hi. }
  split; [exact Hs|].
  assert (ClickSave ∉ Reject i :: ls') as Hls''.
  { apply not_elem_of_cons. by split. }
  destruct (run_cons _ _ _ _ _ _ Hls'' Hown' Hrun')
    as (c3 & e3 & e' & Hs' & Hr & -> & Hne & Hown1 & _ & Hown3).
  rewrite Hs in Hs'. simplify_eq.
  pose proof (step_inv _ _ _ _ _ _ Hinv2 Hown1 Hne Hs) as Hinv3.
  pose proof (run_inv_run _ _ _ _ _ _ Hinv3 Hls' Hown3 Hr) as Hinv4.
  destruct (run_short r n 1 0 _ _ _ _ Hinv3 Hls' Hown3 Hr) as [Hshort _].
  { destruct Hinv2 as [_ _ _ _ Hload _ _]. cbn.
    change (deref (with_pending ?p ?c') ?r) with (deref c' r).
    rewrite (inflight_delete _ _ _ _ Hi). cbn. lia. }
  { destruct Hinv3 as [_ _ _ _ _ _ Hsv]. lia. }
  pose proof (run_inv_ordered _ _ _ Hinv4) as (Htot & Hord & Hle).
  pose proof (inflight_nonneg is_Downloading (pending c)).
  assert (lengthLoaded (status c) < n) as Hlt by lia.
  split; [lia|].
  destruct (run_all_loaded ls c1 c2 e2) as [Hp2 Hl2]; [lia|done..|].
  destruct (run_all_saved ls c1 c2 e2) as [Hq2 Hs2]; [lia|done..|].
  destruct (run_all_loaded _ (with_pending (delete i (pending c2)) c2) _ _ Hp2 Hls' Hr)
    as [_ Hl4].
  destruct (run_all_saved _ (with_pending (delete i (pending c2)) c2) _ _ Hq2 Hls' Hr)
    as [_ Hs4].
  cbn in Hl4, Hs4.
  assert (all_loaded (status c) = 0 /\ all_saved (status c) = 0) as [Hal Has].
  { unfold all_loaded, all_saved. split; case_bool_decide; lia. }
  cbn [app].
  split; apply no_event; rewrite !fired_app, !length_app, !Hf by done; cbn [app length]; lia.
Qed.

(** X4. In a run alone, a rejected save changes nothing but the task:
    [lengthSaved] stays as it is, no event is fired.  From then on
    [lengthSaved] stays below [lengthToBeSaved], and the all-saved event is
    not fired in the run, before or after. *)
Theorem rejected_save_stalls c0 c1 e1 ls c2 e2 i tile blob ls' c e :
  settled c0 ->
  _saveTiles c0 = (Returned, c1, e1) ->
  ClickSave ∉ ls ->
  own_callbacks (_tilesforSave (status c1)) ls c1 = true ->
  run ls c1 = Some (c2, e2) ->
  pending c2 !! i = Some (Saving tile blob) ->
  ClickSave ∉ ls' ->
  own_callbacks (_tilesforSave (status c1)) (Reject i :: ls') c2 = true ->
  run (Reject i :: ls') c2 = Some (c, e) ->
  step (Reject i) c2 = Some (with_pending (delete i (pending c2)) c2, []) /\
  lengthSaved (status c) < lengthToBeSaved (status c) /\
  fired "saveend" (e1 ++ e2 ++ e) = [].
Proof.
  intros Hq Hsave Hls Hown Hrun Hi Hls' Hown' Hrun'.
  destruct (run_inv_start _ _ _ Hq Hsave) as (Hinv1 & Hl0 & Hs0).
  destruct (_saveTiles_fresh_counters _ _ _ Hsave) as (Hld0 & Hsv0 & Hf & _).
  set (r := _tilesforSave (status c1)) in *. set (n := lengthToBeSaved (status c1)) in *.
  pose proof (run_inv_run _ _ _ _ _ _ Hinv1 Hls Hown Hrun) as Hinv2.
  assert (step (Reject i) c2 = Some (with_pending (delete i (pending c2)) c2, [])) as Hs.
  { unfold step. by rewrite Hi. }
  split; [exact Hs|].
  assert (ClickSave ∉ Reject i :: ls') as Hls''.
  { apply not_elem_of_cons. by split. }
  destruct (run_cons _ _ _ _ _ _ Hls'' Hown' Hrun')
    as (c3 & e3 & e' & Hs' & Hr & -> & Hne & Hown1 & _ & Hown3).
  rewrite Hs in Hs'. simplify_eq.
  pose proof (step_inv _ _ _ _ _ _ Hinv2 Hown1 Hne Hs) as Hinv3.
  pose proof (run_inv_run _ _ _ _ _ _ Hinv3 Hls' Hown3 Hr) as Hinv4.
  destruct (run_short r n 0 1 _ _ _ _ Hinv3 Hls' Hown3 Hr) as [_ Hshort].
  { destruct Hinv3 as [_ _ _ _ Hload _ _]. lia. }
  { destruct Hinv2 as [_ _ _ _ _ _ Hsv]. cbn.
    rewrite (inflight_delete _ _ _ _ Hi). cbn. lia. }
  pose proof (run_inv_ordered _ _ _ Hinv4) as (Htot & Hord & Hle).
  pose proof (inflight_nonneg is_Saving (pending c)).
  assert (lengthSaved (status c) < n) as Hlt by lia.
  split; [lia|].
  destruct (run_all_saved ls c1 c2 e2) as [Hq2 Hs2]; [lia|done..|].
  destruct (run_all_saved _ (with_pending (delete i (pending c2)) c2) _ _ Hq2 Hls' Hr)
    as [_ Hs4].
  cbn in Hs4.
  assert (all_saved (status c) = 0) as Has.
  { unfold all_saved. case_bool_decide; lia. }
  cbn [app].
  apply no_event; rewrite !fired_app, !length_app, !Hf by done; cbn [app length]; lia.
Qed.

(** *** Runs in which nothing is rejected *)


Lemma inflight_excluded (f g : task -> bool) p :
  (forall t, f t = true -> g t = false) -> forallb g p = true -> inflight f p = 0.
Proof.
  intros Hfg. unfold inflight. induction p as [|t p IH]; cbn; [done|].
  intros [Ht Hp]%andb_prop. specialize (IH Hp).
  destruct (f t) eqn:Hf; [|done]. rewrite (Hfg _ Hf) in Ht. done.
Qed.




(** *** How many loops at once *)

Lemma step_loops b l c c' e :
  loops c <= b ->
  l <> ClickSave -> (forall i, l <> ProceedSave i) -> step l c = Some (c', e) ->
  loops c' <= b.
Proof.
  unfold loops. intros Hb Hl Hp Hs.
  pose proof (inflight_nonneg is_Downloading (pending c)).
  pose proof (inflight_nonneg is_Looping (pending c)).
  step_cases l c Hs Hi; try done; try (by destruct (Hp i)).
  all: try pose proof (inflight_lookup is_Downloading _ _ _ Hi eq_refl).
  all: try pose proof (inflight_lookup is_Looping _ _ _ Hi eq_refl).
  all: try lia.
  all: rewrite ?pending_claimed; cbn;
    rewrite ?inflight_app, ?inflight_singleton, ?inflight_fmap_Downloading,
      ?inflight_fmap_Looping, ?(inflight_delete _ _ _ _ Hi), ?length_take; cbn; try lia.
  destruct (length (deref (with_pending _ _) _)); lia.
Qed.

Lemma run_loops b ls c c' e :
  loops c <= b ->
  ClickSave ∉ ls -> (forall i, ProceedSave i ∉ ls) -> run ls c = Some (c', e) ->
  loops c' <= b.
Proof.
  revert c e. induction ls as [|l ls IH]; intros c e Hb Hls Hp Hrun; cbn in Hrun.
  - by simplify_eq.
  - destruct (step l c) as [[c1 e1]|] eqn:Hs; [|done].
    destruct (run ls c1) as [[c2 e2]|] eqn:Hr; [|done]. simplify_eq.
    apply not_elem_of_cons in Hls as [Hl Hls].
    assert (l <> ClickSave) as Hl' by congruence.
    assert (forall i, l <> ProceedSave i) as Hp1.
    { intros i ->. apply (Hp i). by left. }
    assert (forall i, ProceedSave i ∉ ls) as Hp2.
    { intros i Hi. apply (Hp i). by right. }
    eapply IH; [|done..]. by eapply step_loops.
Qed.

(** X6. Without a confirmation hook, in a run requested while no download,
    no save and no loader loop is under way and during which no confirmation
    callback is called, the worker loops, downloading or about to claim
    their next tile, are never more than [min(tileCount, parallel)], and so
    are the downloads in flight. *)
Theorem loops_bounded c0 c1 e1 ls c e :
  settled c0 ->
  confirm (options c0) = false ->
  _saveTiles c0 = (Returned, c1, e1) ->
  ClickSave ∉ ls ->
  (forall i, ProceedSave i ∉ ls) ->
  run ls c1 = Some (c, e) ->
  0 <= inflight is_Downloading (pending c) <= loops c /\
  loops c <= Z.max 0 (Z.min (lengthToBeSaved (status c1)) (parallel (options c0))).
Proof.
  intros Hq Hno Hsave Hls Hp Hrun. split.
  { unfold loops. pose proof (inflight_nonneg is_Downloading (pending c)).
    pose proof (inflight_nonneg is_Looping (pending c)). lia. }
  destruct (_saveTiles_shape _ _ _ Hsave) as (levels & Hz & Hshape).
  cbn zeta in Hshape. destruct Hshape as (Hreset & Hd & [(Hyes & _)|(_ & Hc1 & He1)]);
    [congruence|].
  eapply (run_loops _ _ c1); [|done..].
  unfold loops. rewrite Hc1, pending_claimed, status_claimed, !inflight_app,
    inflight_fmap_Downloading, inflight_fmap_Looping, Hd, length_take.
  cbn. rewrite (inflight_excluded is_Downloading waiting),
    (inflight_excluded is_Looping waiting); try (apply Hq); try (by intros []).
  lia.
Qed.

(** *** The cached count *)

Lemma recounts_fetches (l : list TileManager.TileInfo) :
  recounts ((fun t => downloadTile (TileManager.url t)) <$> l) = 0%nat.
Proof. unfold recounts. by induction l. Qed.

Lemma recounts_cons_fetches type d (l : list TileManager.TileInfo) :
  recounts (fire type d :: ((fun t => downloadTile (TileManager.url t)) <$> l)) = 0%nat.
Proof. apply recounts_fetches. Qed.

Lemma forallb_counted_fetches r (l : list TileManager.TileInfo) :
  forallb counted (Downloading r <$> l) = true.
Proof. by induction l. Qed.

Lemma _saveTiles_Thrown c message c1 e1 :
  _saveTiles c = (Thrown message, c1, e1) -> c1 = c /\ e1 = [].
Proof.
  unfold _saveTiles, mbind, M_bind, mret, M_ret. rewrite _saveTiles_reset_eq.
  destruct (requestedZoomlevels c); cbn.
  - by intros ?; simplify_eq.
  - by destruct (_saveTiles_confirm _ _) as [[[] ?] ?].
Qed.

Lemma step_cached l c c' e :
  storagesize (status c) <> 0 ->
  forallb counted (pending c) = true ->
  l <> ClickRemove ->
  step l c = Some (c', e) ->
  storagesize (status c') = storagesize (status c) /\
  forallb counted (pending c') = true /\
  recounts e = 0%nat /\ fired "storagesize" e = [].
Proof.
  intros Hsize Hcounted Hl Hs.
  pose proof (fun i => forallb_delete counted (pending c) i Hcounted) as Hdel.
  pose proof (fun i t => forallb_lookup counted (pending c) i t Hcounted) as Hlook.
  step_cases l c Hs Hi; try done.
  { unfold discard, mbind, M_bind, mret, M_ret in Hs.
    destruct (_saveTiles c) as [[k c1] e1] eqn:Hk. simplify_eq. rewrite app_nil_r.
    destruct k as [|message].
    - destruct (_saveTiles_shape _ _ _ Hk) as (levels & _ & Hshape).
      cbn zeta in Hshape. destruct Hshape as (_ & _ & [(_ & -> & ->)|(_ & -> & ->)]).
      + cbn. by rewrite forallb_app, Hcounted.
      + rewrite pending_claimed, status_claimed, forallb_app, forallb_counted_fetches,
          recounts_cons_fetches, fired_cons_fetches. cbn. by rewrite Hcounted.
    - by destruct (_saveTiles_Thrown _ _ _ _ Hk) as [-> ->]. }
  all: try (by pose proof (Hlook _ _ Hi)).
  all: rewrite ?pending_claimed, ?status_claimed, ?forallb_app, ?forallb_counted_fetches,
    ?recounts_cons_fetches, ?fired_cons_fetches, ?recounts_app, ?recounts_fetches,
    ?fired_app, ?fired_fetches; cbn in *;
    rewrite ?forallb_app, ?Hdel, ?Hcounted; try done.
Qed.

(** X7. Once a non-zero count is cached, and while no count or removal is
    under way or requested, nothing the control does changes it: whatever
    tiles are saved in between, [storagesize] stays as it is,
    [getStorageLength] is not called again, and no storage-size event is
    fired. *)
Theorem cached_count_stays ls c c' e :
  storagesize (status c) <> 0 ->
  forallb counted (pending c) = true ->
  ClickRemove ∉ ls ->
  run ls c = Some (c', e) ->
  storagesize (status c') = storagesize (status c) /\
  recounts e = 0%nat /\ fired "storagesize" e = [].
Proof.
  revert c e. induction ls as [|l ls IH]; intros c e Hsize Hcounted Hls Hrun; cbn in Hrun.
  - by simplify_eq.
  - destruct (step l c) as [[c1 e1]|] eqn:Hs; [|done].
    destruct (run ls c1) as [[c2 e2]|] eqn:Hr; [|done]. simplify_eq.
    apply not_elem_of_cons in Hls as [Hl Hls].
    assert (l <> ClickRemove) as Hl' by congruence.
    destruct (step_cached _ _ _ _ Hsize Hcounted Hl' Hs) as (Hs1 & Hc1 & Hr1 & Hf1).
    destruct (IH c1 e2) as (Hs2 & Hr2 & Hf2); [congruence|done..|].
    rewrite recounts_app, fired_app, Hr1, Hr2, Hf1, Hf2. split; [congruence|done].
Qed.

(** *** Runs without tiles *)

Lemma zoomRange_empty currentZoom maxZoom :
  maxZoom < currentZoom -> zoomRange currentZoom maxZoom = [].
Proof.
  intros. unfold zoomRange. by replace (Z.to_nat (maxZoom - currentZoom + 1)) with 0%nat by lia.
Qed.

(** X8. Saving what is seen with the map zoomed in beyond [maxZoom] (and at
    level 5 or more) is no error: the loop at lines 147-149 pushes no level,
    the request returns with an empty work list and a target of 0, the hook
    is asked or [savestart] is fired as for any other run, and nothing is
    downloaded. *)
Theorem beyond_maxZoom c :
  saveWhatYouSee (options c) = true ->
  5 <= Leaflet.getZoom (_map c) ->
  maxZoom (options c) < Leaflet.getZoom (_map c) ->
  requestedZoomlevels c = inr [] /\
  exists c1,
    _saveTiles c =
      (Returned, c1,
       [if confirm (options c) then call_confirm (status c1)
        else fire "savestart" (Some (status c1))]) /\
    lengthToBeSaved (status c1) = 0 /\
    deref c1 (_tilesforSave (status c1)) = [] /\
    storagesize (status c1) = storagesize (status c) /\
    pending c1 = pending c ++ (if confirm (options c)
                               then [ConfirmingSave (_tilesforSave (status c1))] else []).
Proof.
  intros Hsee Hmin Hmax.
  assert (requestedZoomlevels c = inr []) as Hz.
  { unfold requestedZoomlevels. rewrite Hsee. cbn zeta.
    case_bool_decide; [lia|]. by rewrite zoomRange_empty. }
  split; [done|].
  destruct (_saveTiles c) as [[k c1] e1] eqn:Hk.
  destruct k as [|message].
  - destruct (_saveTiles_shape _ _ _ Hk) as (levels & Hz' & Hshape).
    rewrite Hz in Hz'. simplify_eq. cbn zeta in Hshape.
    assert (collectTiles c [] = []) as Hnil by done. rewrite Hnil in Hshape.
    exists c1.
    destruct Hshape as (Hreset & Hd & [(Hyes & Hc1 & He1)|(Hno & Hc1 & He1)]).
    + rewrite Hyes, He1, Hc1. split; [reflexivity|]. repeat split; done.
    + rewrite Hno, He1, Hc1, take_nil. split; [reflexivity|].
      rewrite status_claimed, pending_claimed, deref_claimed, Hd.
      * repeat split; try done.
        -- etrans; [|apply drop_nil]. f_equal. exact Hd.
        -- by rewrite take_nil.
      * cbn. rewrite length_app. cbn. lia.
  - unfold _saveTiles, mbind, M_bind, mret, M_ret in Hk.
    rewrite _saveTiles_reset_eq, Hz in Hk. cbn in Hk.
    by destruct (_saveTiles_confirm _ _) as [[[] ?] ?].
Qed.

(** X9. A run alone without tiles does nothing after its start: requested
    while no download, no save and no loader loop is under way, and with only
    its own confirmation callback called, in every session up to the next
    save request nothing is downloaded or saved, none of [loadtileend],
    [loadend], [savetileend] and [saveend] is ever fired, and the counters
    stay 0. A listener that waits for [saveend] waits for ever. *)
Theorem empty_run c0 c1 e1 ls c e :
  settled c0 ->
  _saveTiles c0 = (Returned, c1, e1) ->
  lengthToBeSaved (status c1) = 0 ->
  ClickSave ∉ ls ->
  own_callbacks (_tilesforSave (status c1)) ls c1 = true ->
  run ls c1 = Some (c, e) ->
  fetched (e1 ++ e) = [] /\
  saved_tiles (e1 ++ e) = [] /\
  fired "loadtileend" (e1 ++ e) = [] /\
  fired "loadend" (e1 ++ e) = [] /\
  fired "savetileend" (e1 ++ e) = [] /\
  fired "saveend" (e1 ++ e) = [] /\
  lengthLoaded (status c) = 0 /\ lengthSaved (status c) = 0 /\
  inflight is_Downloading (pending c) = 0 /\ inflight is_Saving (pending c) = 0.
Proof.
  intros Hq Hsave Hzero Hls Hown Hrun.
  destruct (run_inv_start _ _ _ Hq Hsave) as (Hinv1 & Hal1 & Has1).
  rewrite Hzero in Hinv1.
  pose proof (run_inv_run _ _ _ _ _ _ Hinv1 Hls Hown Hrun) as Hinv2.
  pose proof (inflight_nonneg is_Downloading (pending c)).
  pose proof (inflight_nonneg is_Saving (pending c)).
  pose proof (inflight_nonneg is_Downloading (pending c1)).
  destruct (_saveTiles_fresh_counters _ _ _ Hsave) as (Hl0 & Hs0 & Hf & Ht0).
  destruct (run_progress _ _ _ _ Hls Hrun) as (Htot & _ & Hl & Hs & Hst).
  destruct (run_all_loaded ls c1 c e) as [_ Hal]; [lia|done..|].
  destruct (run_all_saved ls c1 c e) as [_ Has]; [lia|done..|].
  pose proof (run_fetched _ _ _ _ _ _ Hinv1 Hls Hown Hrun) as Hfetched.
  destruct Hinv2 as [_ _ _ _ Hload2 Hpos2 Hsaved2].
  assert (lengthLoaded (status c) = 0 /\ lengthSaved (status c) = 0) as [Hl2 Hs2] by lia.
  assert (deref c1 (_tilesforSave (status c1)) = []) as Hempty.
  { destruct Hinv1 as [_ _ _ _ Hload1 _ _]. apply length_zero_iff_nil. lia. }
  rewrite Hempty in Hfetched. cbn in Hfetched.
  apply app_eq_nil in Hfetched as [Hfe _].
  assert (fetched e1 = []) as Hfe1.
  { destruct (_saveTiles_shape _ _ _ Hsave) as (levels & Hz & Hshape).
    cbn zeta in Hshape. destruct Hshape as (Hreset & Hd & [(_ & _ & ->)|(_ & Hc1 & ->)]);
      [done|].
    rewrite Hc1, status_claimed in Hzero. cbn in Hzero.
    assert (collectTiles c0 levels = []) as -> by (apply length_zero_iff_nil; lia).
    by rewrite take_nil. }
  rewrite Hal1 in Hal. rewrite Has1 in Has.
  unfold all_loaded, all_saved in Hal, Has.
  repeat case_bool_decide; try lia.
  rewrite !fired_app, fetched_app, saved_tiles_app, Hfe, Hfe1, Ht0, !Hf by done.
  rewrite (no_event "loadtileend" e), (no_event "loadend" e), (no_event "savetileend" e),
    (no_event "saveend" e) by lia.
  assert (saved_tiles e = []) as -> by (apply length_zero_iff_nil; lia).
  repeat split; try done; lia.
Qed.

(** *** Every download is accounted for *)

Lemma downloaded_mono urls urls' (p : list task) :
  Forall (downloaded urls) p -> Forall (downloaded (urls ++ urls')) p.
Proof.
  intros Hp. eapply Forall_impl; [exact Hp|].
  intros [] Ht; try done. cbn in *. apply elem_of_app. by left.
Qed.

Lemma downloaded_fetches urls r (l : list TileManager.TileInfo) :
  Forall (downloaded (urls ++ (TileManager.url <$> l))) (Downloading r <$> l).
Proof.
  apply Forall_fmap, Forall_forall. intros tile Hin. cbn.
  apply elem_of_app. right. by apply list_elem_of_fmap_2.
Qed.

Lemma step_accounted urls l c c' e :
  Forall (downloaded urls) (pending c) ->
  step l c = Some (c', e) ->
  Forall (fun tile => TileManager.url tile ∈ urls) (saved_tiles e) /\
  Forall (downloaded (urls ++ fetched e)) (pending c') /\
  Z.of_nat (length (saved_tiles e)) + inflight is_Downloading (pending c')
    <= Z.of_nat (length (fetched e)) + inflight is_Downloading (pending c) /\
  ((forall i, l <> Reject i) ->
   Z.of_nat (length (saved_tiles e)) + inflight is_Downloading (pending c')
    = Z.of_nat (length (fetched e)) + inflight is_Downloading (pending c)).
Proof.
  intros Hp Hs.
  pose proof (fun i => Forall_delete (downloaded urls) (pending c) i Hp) as Hdel.
  step_cases l c Hs Hi; try done.
  { unfold discard, mbind, M_bind, mret, M_ret in Hs.
    destruct (_saveTiles c) as [[k c1] e1] eqn:Hk. simplify_eq. rewrite app_nil_r.
    destruct k as [|message].
    - destruct (_saveTiles_shape _ _ _ Hk) as (levels & _ & Hshape).
      cbn zeta in Hshape. destruct Hshape as (_ & Hd & [(_ & -> & ->)|(_ & -> & ->)]).
      + cbn. rewrite inflight_app, inflight_singleton, app_nil_r, Forall_app. cbn.
        repeat split; try (done || lia). by repeat constructor.
      + rewrite fetched_cons_fetches, saved_tiles_cons_fetches, pending_claimed,
          inflight_app, inflight_fmap_Downloading, length_fmap, Forall_app, Hd.
        cbn [length saved_tiles omap].
        split; [done|]. split; [|cbn; lia].
        split; [by apply downloaded_mono|apply downloaded_fetches].
    - destruct (_saveTiles_Thrown _ _ _ _ Hk) as [-> ->]. cbn. rewrite app_nil_r.
      repeat split; try (done || lia). }
  all: try pose proof (inflight_lookup is_Downloading _ _ _ Hi eq_refl).
  all: try (pose proof (Forall_lookup_1 _ _ _ _ Hp Hi) as Hurl; cbn in Hurl).
  all: rewrite ?fetched_app, ?saved_tiles_app, ?fetched_cons_fetches,
    ?saved_tiles_cons_fetches, ?fetched_fetches,
    ?saved_tiles_fetches, ?pending_claimed, ?length_fmap.
  all: cbn [pending with_pending fetched saved_tiles omap app length].
  all: rewrite ?inflight_app, ?inflight_singleton, ?inflight_fmap_Downloading,
      ?(inflight_delete _ _ _ _ Hi), ?Forall_app, ?app_nil_r.
  all: cbn [is_Downloading length].
  all: repeat split; try (done || lia).
  all: try (by repeat constructor).
  all: try (by apply downloaded_mono).
  all: try apply downloaded_fetches.
  all: try apply Hdel.
  all: try (intros Hrej; by destruct (Hrej i)).
  all: intros; cbn; rewrite ?length_app, ?length_fmap; cbn; lia.
Qed.

Lemma run_accounted urls ls c c' e :
  Forall (downloaded urls) (pending c) ->
  run ls c = Some (c', e) ->
  Forall (fun tile => TileManager.url tile ∈ urls ++ fetched e) (saved_tiles e) /\
  Forall (downloaded (urls ++ fetched e)) (pending c') /\
  Z.of_nat (length (saved_tiles e)) + inflight is_Downloading (pending c')
    <= Z.of_nat (length (fetched e)) + inflight is_Downloading (pending c) /\
  ((forall i, Reject i ∉ ls) ->
   Z.of_nat (length (saved_tiles e)) + inflight is_Downloading (pending c')
    = Z.of_nat (length (fetched e)) + inflight is_Downloading (pending c)).
Proof.
  revert urls c e. induction ls as [|l ls IH]; intros urls c e Hp Hrun; cbn in Hrun.
  - simplify_eq. cbn. rewrite app_nil_r. repeat split; (done || lia).
  - destruct (step l c) as [[c1 e1]|] eqn:Hs; [|done].
    destruct (run ls c1) as [[c2 e2]|] eqn:Hr; [|done]. simplify_eq.
    destruct (step_accounted _ _ _ _ _ Hp Hs) as (Hs1 & Hp1 & Hle1 & Heq1).
    destruct (IH _ _ _ Hp1 Hr) as (Hs2 & Hp2 & Hle2 & Heq2).
    rewrite fetched_app, saved_tiles_app, !length_app, Forall_app, app_assoc.
    split; [split; [|done]|].
    { eapply Forall_impl; [exact Hs1|]. intros tile Hin. cbn.
      rewrite <- app_assoc. apply elem_of_app. by left. }
    split; [done|]. split; [lia|]. intros Hrej.
    rewrite Nat2Z.inj_add, Nat2Z.inj_add.
    assert (forall i, l <> Reject i) as Hrej1.
    { intros i ->. apply (Hrej i). by left. }
    assert (forall i, Reject i ∉ ls) as Hrej2.
    { intros i Hi. apply (Hrej i). by right. }
    specialize (Heq1 Hrej1). specialize (Heq2 Hrej2). lia.
Qed.

(** X10. From the constructor on, whatever is clicked, answered or rejected
    and however the runs overlap: every tile handed to [saveTile] had its url
    requested from [downloadTile] in the session; the tiles handed to
    [saveTile] and the downloads still in flight are never more than the
    downloads requested, and make up all of them when nothing was rejected,
    so each download that is answered is saved once. *)
Theorem downloads_accounted map baseLayer opts c0 e0 ls c e :
  constructor map baseLayer opts = (c0, e0) ->
  run ls c0 = Some (c, e) ->
  (forall tile, tile ∈ saved_tiles e -> TileManager.url tile ∈ fetched e) /\
  Z.of_nat (length (saved_tiles e)) + inflight is_Downloading (pending c)
    <= Z.of_nat (length (fetched e)) /\
  ((forall i, Reject i ∉ ls) ->
   Z.of_nat (length (saved_tiles e)) + inflight is_Downloading (pending c)
    = Z.of_nat (length (fetched e))).
Proof.
  intros Hnew Hrun.
  assert (pending c0 = [Counting]) as Hp0.
  { unfold constructor in Hnew. exec_in Hnew. case_bool_decide; [done|]. by simplify_eq. }
  assert (Forall (downloaded []) (pending c0)) as Hp.
  { rewrite Hp0. by repeat constructor. }
  destruct (run_accounted _ _ _ _ _ Hp Hrun) as (Hs & _ & Hle & Heq).
  rewrite Hp0 in Hle, Heq. change (inflight is_Downloading [Counting]) with 0 in Hle, Heq.
  split; [|split; [lia|intros Hrej; specialize (Heq Hrej); lia]].
  intros tile Hin. by apply (proj1 (Forall_forall _ _) Hs).
Qed.

(** *** A request cancels nothing *)

Lemma fulfil_download c i tiles tile blob :
  pending c !! i = Some (Downloading tiles tile) ->
  exists c2 e2,
    step (Fulfil i (VBlob blob)) c = Some (c2, e2) /\
    saved_tiles e2 = [tile] /\
    lengthLoaded (status c2) = lengthLoaded (status c) + 1 /\
    lengthToBeSaved (status c2) = lengthToBeSaved (status c) /\
    _tilesforSave (status c2) = _tilesforSave (status c).
Proof.
  intros Hi.
  destruct (step (Fulfil i (VBlob blob)) c) as [[c2 e2]|] eqn:Hs.
  - exists c2, e2. split; [done|].
    unfold step in Hs. rewrite Hi in Hs. exec_in Hs.
    by case_bool_decide; simplify_eq.
  - unfold step in Hs. rewrite Hi in Hs. exec_in Hs.
    by case_bool_decide.
Qed.

(** X11. A save request cancels nothing of what is under way: every reaction
    that was waiting still waits at its place, and the arrays of earlier
    runs keep their tiles, so the loaders of an earlier run go on. The
    reactions find the record of the new request: a download of an earlier
    run that is answered after it hands its tile to [saveTile] and counts
    into [lengthLoaded] of the new record, whose target and work list are
    those of the new request. *)
Theorem request_cancels_nothing c k c1 e1 :
  _saveTiles c = (k, c1, e1) ->
  (forall i t, pending c !! i = Some t -> pending c1 !! i = Some t) /\
  (forall r, (r < length (heap c))%nat -> deref c1 r = deref c r) /\
  (forall i tiles tile blob,
     pending c !! i = Some (Downloading tiles tile) ->
     exists c2 e2,
       step (Fulfil i (VBlob blob)) c1 = Some (c2, e2) /\
       saved_tiles e2 = [tile] /\
       lengthLoaded (status c2) = lengthLoaded (status c1) + 1 /\
       lengthToBeSaved (status c2) = lengthToBeSaved (status c1) /\
       _tilesforSave (status c2) = _tilesforSave (status c1)).
Proof.
  intros Hk.
  assert ((forall i t, pending c !! i = Some t -> pending c1 !! i = Some t) /\
          (forall r, (r < length (heap c))%nat -> deref c1 r = deref c r)) as [Hp Hh].
  { destruct k as [|message].
    - destruct (_saveTiles_shape _ _ _ Hk) as (levels & _ & Hshape).
      cbn zeta in Hshape. destruct Hshape as (_ & _ & [(_ & -> & _)|(_ & -> & _)]).
      + split.
        * intros i t Hi. cbn. by apply lookup_app_l_Some.
        * intros r Hr. unfold deref. cbn. by rewrite lookup_app_l.
      + split.
        * intros i t Hi. rewrite pending_claimed. cbn. by apply lookup_app_l_Some.
        * intros r Hr. unfold claimed, deref. cbn.
          rewrite list_lookup_insert_ne by lia. by rewrite lookup_app_l.
    - by destruct (_saveTiles_Thrown _ _ _ _ Hk) as [-> _]. }
  split; [done|]. split; [done|].
  intros i tiles tile blob Hi. apply (fulfil_download _ _ tiles). by apply Hp.
Qed.

(** *** No loader allowed *)

(** X12. With [parallel] at 0 or below and no confirmation hook, the loop of
    lines 174-176 starts no loader: the request resets the status and fires
    [savestart], and then the run stands still. Requested while no download,
    no save and no loader loop is under way, and as long as no confirmation
    callback is called, in every session up to the next save request nothing
    is downloaded or handed to [saveTile], the work list stays whole, both
    counters stay 0, and none of [loadtileend], [loadend], [savetileend] and
    [saveend] is fired. *)
Theorem no_loader_allowed c0 c1 e1 ls c e :
  settled c0 ->
  confirm (options c0) = false ->
  parallel (options c0) <= 0 ->
  _saveTiles c0 = (Returned, c1, e1) ->
  ClickSave ∉ ls ->
  (forall i, ProceedSave i ∉ ls) ->
  run ls c1 = Some (c, e) ->
  exists levels,
    requestedZoomlevels c0 = inr levels /\
    fired "savestart" (e1 ++ e) = [Some (status c1)] /\
    fetched (e1 ++ e) = [] /\
    saved_tiles (e1 ++ e) = [] /\
    deref c (_tilesforSave (status c)) = collectTiles c0 levels /\
    lengthToBeSaved (status c) = Z.of_nat (length (collectTiles c0 levels)) /\
    lengthLoaded (status c) = 0 /\ lengthSaved (status c) = 0 /\
    fired "loadtileend" (e1 ++ e) = [] /\
    fired "loadend" (e1 ++ e) = [] /\
    fired "savetileend" (e1 ++ e) = [] /\
    fired "saveend" (e1 ++ e) = [].
Proof.
  intros Hq Hno Hpar Hsave Hls Hnone Hrun.
  destruct (run_inv_start _ _ _ Hq Hsave) as (Hinv1 & Hal1 & Has1).
  destruct (_saveTiles_shape _ _ _ Hsave) as (levels & Hz & Hshape).
  cbn zeta in Hshape. destruct Hshape as (Hreset & Hd & [(Hyes & _)|(_ & Hc1 & He1)]);
    [congruence|].
  exists levels. split; [exact Hz|].
  set (tiles := collectTiles c0 levels) in *.
  set (r := length (heap c0)) in *.
  replace (Z.to_nat (Z.min (Z.of_nat (length tiles)) (parallel (options c0))))
    with 0%nat in Hc1, He1 by lia.
  rewrite take_0 in He1. cbn in He1.
  destruct (_saveTiles_reset_inv _ _ _ _ Hq Hreset) as [Hinvr Hqr].
  assert (pending c1 = pending c0) as Hp1.
  { rewrite Hc1, pending_claimed, take_0. cbn. by rewrite app_nil_r. }
  assert (deref c1 r = tiles) as Hd1.
  { rewrite Hc1, deref_claimed by apply Hinvr. by rewrite drop_0. }
  assert (_tilesforSave (status c1) = r /\
          lengthToBeSaved (status c1) = Z.of_nat (length tiles)) as [Hr1 Hn1]
    by (by rewrite Hc1).
  assert (forallb waiting (pending c1) = true) as Hw by (by rewrite Hp1).
  destruct (run_waiting _ _ _ _ Hw Hls Hnone Hrun)
    as (_ & Hl2 & Hs2 & Htot & Href & Hheap & Hfe & Hstart).
  destruct (_saveTiles_fresh_counters _ _ _ Hsave) as (Hl0 & Hs0 & Hf & Ht0).
  destruct (run_progress _ _ _ _ Hls Hrun) as (_ & _ & Hl & Hs & Hst).
  destruct (run_all_loaded ls c1 c e) as [_ Hal]; [lia|done..|].
  destruct (run_all_saved ls c1 c e) as [_ Has]; [lia|done..|].
  rewrite Hal1 in Hal. rewrite Has1 in Has.
  assert (deref c r = tiles) as Hd2.
  { unfold deref in *. by rewrite Hheap. }
  rewrite Hl0 in Hl2. rewrite Hs0 in Hs2.
  unfold all_loaded, all_saved in Hal, Has. rewrite Hl2 in Hal. rewrite Hs2 in Has.
  repeat case_bool_decide; try lia.
  rewrite !fired_app, fetched_app, saved_tiles_app, Hfe, Ht0, Hstart.
  rewrite (Hf "loadtileend"), (Hf "loadend"), (Hf "savetileend"), (Hf "saveend") by done.
  rewrite (no_event "loadtileend" e), (no_event "loadend" e), (no_event "savetileend" e),
    (no_event "saveend" e) by lia.
  assert (saved_tiles e = []) as -> by (apply length_zero_iff_nil; lia).
  rewrite Href, Hr1, Hd2, Htot, Hn1, He1.
  repeat split; try done.
  by rewrite Hc1.
Qed.

(** *** Counts at once *)

(** X13. Counts are not shared: while [storagesize] is 0, every call of
    [setStorageSize] calls [getStorageLength] again, whether or not an
    earlier count is still unanswered; after [k] calls [k] counts are under
    way, and the status is as before. *)
Theorem counts_not_shared k c :
  storagesize (status c) = 0 ->
  exists c',
    run (replicate k CallSetStorageSize) c = Some (c', replicate k getStorageLength) /\
    pending c' = pending c ++ replicate k Counting /\
    status c' = status c.
Proof.
  revert c. induction k as [|k IH]; intros c Hzero.
  - exists c. cbn. by rewrite app_nil_r.
  - assert (step CallSetStorageSize c
            = Some (with_pending (pending c ++ [Counting]) c, [getStorageLength])) as Hs.
    { unfold step. unfold discard, setStorageSize, spawn, perform, this,
        mbind, M_bind, mret, M_ret. cbn. case_bool_decide; [done|]. done. }
    destruct (IH (with_pending (pending c ++ [Counting]) c)) as (c' & Hrun & Hp & Hst);
      [done|].
    exists c'. cbn [replicate run]. rewrite Hs, Hrun. cbn [app].
    split; [done|]. split; [|done].
    rewrite Hp. cbn. by rewrite <- app_assoc.
Qed.

End Properties.

(** ** The claims on the small map *)

Ltac no_click :=
  repeat (apply not_elem_of_cons; split; [discriminate|]); apply not_elem_of_nil.

(** A second request on a control with a hook, after the first run went to
    its end: the callback of the second request is called, and its first
    download answered. *)
Lemma counters_ordered_witness :
  let c0 := Sample.asked_done.1 in
  let c1 := Sample.asked_second.1 in
  let c := Sample.asked_second_confirmed.1 in
  settled c0 /\ pending c0 = [ConfirmingSave 1] /\
  (ClickSave ∉ Sample.second_confirmed) /\
  own_callbacks (_tilesforSave (status c1)) Sample.second_confirmed c1 = true /\
  lengthLoaded (status c) = 1 /\ lengthToBeSaved (status c) = 3 /\
  lengthSaved (status c) <= lengthLoaded (status c) <= lengthToBeSaved (status c).
Proof.
  intros c0 c1 c.
  assert (settled c0) as Hq by reflexivity.
  assert (ClickSave ∉ Sample.second_confirmed) as Hls by no_click.
  assert (own_callbacks (_tilesforSave (status c1)) Sample.second_confirmed c1 = true)
    as Hown by reflexivity.
  split; [exact Hq|]. split; [reflexivity|]. split; [exact Hls|]. split; [exact Hown|].
  split; [reflexivity|]. split; [reflexivity|].
  exact (proj1 (proj2 (counters_ordered c0 c1 Sample.asked_second.2
                         Sample.second_confirmed c Sample.asked_second_confirmed.2
                         Hq eq_refl Hls Hown eq_refl))).
Defined.

(** Three tiles, two loaders: the first download and its save are done, the
    third tile is claimed. *)
Lemma worker_loops_witness :
  let c1 := Sample.three_started.1 in
  let e1 := Sample.three_started.2 in
  let c := Sample.three_first_saved.1 in
  let e := Sample.three_first_saved.2 in
  settled Sample.three /\ (ClickSave ∉ Sample.first_saved) /\
  loops c1 = 2 /\
  fetched (e1 ++ e) = ["z13"; "z14"; "z15"] /\
  shifted Sample.three_gate c (e1 ++ e) /\
  fetched (e1 ++ e) ++ (TileManager.url <$> deref c 1)
  = TileManager.url <$> deref Sample.three_gate 1.
Proof.
  intros c1 e1 c e.
  assert (settled Sample.three) as Hq by reflexivity.
  assert (ClickSave ∉ Sample.first_saved) as Hls by no_click.
  split; [exact Hq|]. split; [exact Hls|]. split; [reflexivity|]. split; [reflexivity|].
  pose proof (worker_loops Sample.three 1%nat Sample.three_gate c1 e1
                Sample.first_saved c e eq_refl eq_refl Hls eq_refl) as H.
  cbv zeta in H.
  split; [exact (proj1 (proj2 (proj2 (proj2 (proj2 (proj2 H))))))|].
  exact (proj2 (proj2 (proj2 (proj2 (proj2 (proj2 (proj2 H)))))) Hq eq_refl).
Defined.

(** Nothing stored yet: the three saves end in the all-saved event and one
    recount, which finds three tiles. *)
Lemma all_saved_once_witness :
  let e1 := Sample.fresh_started.2 in
  let c := Sample.fresh_done.1 in
  let e := Sample.fresh_done.2 in
  (ClickSave ∉ Sample.to_the_end) /\
  all_saved (status c) = 1 /\ recounts (e1 ++ e) = 1%nat /\
  storagesize (status c) = 3 /\
  Z.of_nat (length (fired "saveend" (e1 ++ e))) = all_saved (status c).
Proof.
  intros e1 c e.
  assert (ClickSave ∉ Sample.to_the_end) as Hls by no_click.
  split; [exact Hls|]. split; [reflexivity|]. split; [reflexivity|].
  split; [reflexivity|].
  exact (proj1 (all_saved_once Sample.fresh Sample.fresh_started.1 e1
                  Sample.to_the_end c e eq_refl Hls eq_refl)).
Defined.

(** Saving what is seen at zoom 17 takes the levels 17, 18 and 19. *)
Lemma tile_work_list_witness :
  TileManager.z <$> deref Sample.seen17_gate 1 = [17; 18; 19] /\
  exists levels, requestedZoomlevels Sample.seen17 = inr levels /\
    deref Sample.seen17_gate 1 = mjoin ((fun zoom => [Sample.tile zoom]) <$> levels).
Proof.
  split; [reflexivity|].
  destruct (tile_work_list Sample.seen17 1%nat Sample.seen17_gate [] eq_refl)
    as (levels & Hz & Hd & _).
  exists levels. split; [exact Hz|exact Hd].
Defined.

Lemma status_reset_witness :
  let c1 := Sample.three_started.1 in
  status c1 = {| lengthLoaded := 0; lengthToBeSaved := 3; lengthSaved := 0;
                 _tilesforSave := 1%nat; storagesize := 10 |} /\
  exists levels cr, requestedZoomlevels Sample.three = inr levels /\
    _saveTiles_reset Sample.three = (inr 1%nat, cr, []) /\ status c1 = status cr.
Proof.
  intros c1. split; [reflexivity|].
  destruct (status_reset Sample.three c1 Sample.three_started.2 eq_refl)
    as (levels & cr & Hz & Hr & _ & _ & _ & Hs).
  exists levels, cr. split; [exact Hz|]. split; [exact Hr|exact Hs].
Defined.

Lemma zoom_floor_witness :
  saveWhatYouSee (options Sample.seen4) = true /\
  Leaflet.getZoom (_map Sample.seen4) < 5 /\
  step ClickSave Sample.seen4 = Some (Sample.seen4, []).
Proof.
  assert (Leaflet.getZoom (_map Sample.seen4) < 5) as Hz by reflexivity.
  split; [reflexivity|]. split; [exact Hz|].
  exact (proj2 (zoom_floor Sample.seen4 eq_refl Hz)).
Defined.

(** Ten tiles stored and no hook: the removal empties the count and leaves
    the rest of the status. *)
Lemma removal_witness :
  let c1 := Sample.stored_removing.1 in
  let s := {| _tilesforSave := 0%nat; storagesize := 0; lengthToBeSaved := 0;
              lengthSaved := 0; lengthLoaded := 0 |} in
  confirmRemoval (options Sample.stored) = false /\
  storagesize (status c1) = 10 /\
  _rmTiles Sample.stored = (tt, c1, [truncate]) /\
  pending c1 !! 0%nat = Some Truncating /\
  step (Fulfil 0 VVoid) c1
  = Some (with_pending [] (with_status s c1),
          [fire "tilesremoved" None; fire "storagesize" (Some s)]).
Proof.
  intros c1 s. split; [reflexivity|]. split; [reflexivity|].
  split; [exact (proj1 (removal Sample.stored) eq_refl)|]. split; [reflexivity|].
  exact (proj2 (proj2 (removal c1)) 0%nat eq_refl).
Defined.

Lemma storage_size_refresh_witness :
  storagesize (status Sample.stored) <> 0 /\ storagesize (status Sample.empty) = 0 /\
  setStorageSize Sample.stored = (resolved 10, Sample.stored, []) /\
  setStorageSize Sample.empty
  = (awaiting, with_pending [Counting] Sample.empty, [getStorageLength]) /\
  setStorageSize_settled None Sample.empty = (0, Sample.empty, []).
Proof.
  assert (storagesize (status Sample.stored) <> 0) as Hs by discriminate.
  split; [exact Hs|]. split; [reflexivity|].
  split; [exact (proj1 (storage_size_refresh Sample.stored) Hs)|].
  split; [exact (proj1 (proj2 (storage_size_refresh Sample.empty)) eq_refl)|].
  exact (proj1 (proj2 (proj2 (proj2 (storage_size_refresh Sample.empty))))).
Defined.

(** Without a hook the request itself starts the first two downloads. With
    a hook that does not call back, the tiles stored are removed and nothing
    else happens. *)
Lemma confirmation_gate_witness :
  let c := Sample.asked_removed.1 in
  let e := Sample.asked_removed.2 in
  (confirm (options Sample.three) = false /\
   _saveTiles_confirm 1 Sample.three_gate =
     (tt, claimed 2 1 Sample.three_gate,
      fire "savestart" (Some (status Sample.three_gate))
        :: ((fun t => downloadTile (TileManager.url t))
              <$> take 2 (deref Sample.three_gate 1))) /\
   fetched Sample.three_started.2 = ["z13"; "z14"]) /\
  settled Sample.asked /\ confirm (options Sample.asked) = true /\
  (ClickSave ∉ Sample.removing) /\ (forall i, ProceedSave i ∉ Sample.removing) /\
  storagesize (status c) = 0 /\
  fetched e = [] /\ lengthLoaded (status c) = 0 /\ lengthSaved (status c) = 0 /\
  lengthToBeSaved (status c) = 3 /\ length (deref c 1) = 3%nat.
Proof.
  intros c e.
  assert (settled Sample.asked) as Hq by reflexivity.
  assert (ClickSave ∉ Sample.removing) as Hls by no_click.
  assert (forall i, ProceedSave i ∉ Sample.removing) as Hp by (intros i; no_click).
  split.
  { split; [reflexivity|]. split; [|reflexivity].
    exact (proj1 (proj1 (confirmation_gate Sample.three 1%nat Sample.three_gate eq_refl)
                    eq_refl)). }
  split; [exact Hq|]. split; [reflexivity|]. split; [exact Hls|]. split; [exact Hp|].
  split; [reflexivity|].
  destruct (proj2 (confirmation_gate Sample.asked 1%nat Sample.asked_gate eq_refl)
              eq_refl) as [_ H].
  destruct (H Sample.removing c e Hq Hls Hp eq_refl)
    as (Hf & _ & _ & Hd & _ & Hl & Hs & Ht).
  split; [exact Hf|]. split; [exact Hl|]. split; [exact Hs|]. split; [exact Ht|].
  rewrite Hd. reflexivity.
Defined.


(** ** Where the code parts from the claims as they were stated *)

(** C1 as stated fails. The status record is the control's, not the run's:
    the reactions of a run still in flight count into the record of the next
    request. After a second request made while the two downloads of the
    first are in flight, the four downloads are answered, and [lengthLoaded]
    is 4 with three tiles to be saved. The same happens on a control with a
    hook when nothing is in flight at the second request and the hook then
    calls back the callback of the first request too. *)
Lemma runs_at_once_share_the_status :
  let c := Sample.three_twice.1 in
  let c0' := Sample.asked_started.1 in
  let c1' := Sample.asked_twice.1 in
  let c' := Sample.asked_twice_both.1 in
  (run Sample.twice Sample.three = Some Sample.three_twice /\
   lengthLoaded (status c) = 4 /\ lengthToBeSaved (status c) = 3 /\
   ~ lengthLoaded (status c) <= lengthToBeSaved (status c)) /\
  (settled c0' /\
   _saveTiles c0' = (Returned, c1', Sample.asked_twice.2) /\
   pending c1' = [ConfirmingSave 1; ConfirmingSave 2] /\
   _tilesforSave (status c1') = 2%nat /\
   run Sample.both_callbacks c1' = Some Sample.asked_twice_both /\
   lengthLoaded (status c') = 4 /\ lengthToBeSaved (status c') = 3 /\
   ~ lengthLoaded (status c') <= lengthToBeSaved (status c')).
Proof.
  split.
  - split; [reflexivity|]. split; [reflexivity|]. split; [reflexivity|]. cbn. lia.
  - split; [reflexivity|]. split; [reflexivity|]. split; [reflexivity|].
    split; [reflexivity|]. split; [reflexivity|]. split; [reflexivity|].
    split; [reflexivity|]. cbn. lia.
Qed.

(** C2 as stated fails. The download of the first of three tiles is
    rejected: its worker loop is gone, one loop is left of two, and a tile is
    still in the list. *)
Lemma loop_ended_by_a_rejection :
  let c1 := Sample.three_started.1 in
  let c := Sample.three_rejected.1 in
  step (Reject 0) c1 = Some Sample.three_rejected /\
  loops c1 = 2 /\ loops c = 1 /\
  TileManager.url <$> deref c 1 = ["z15"] /\
  deref c 1 <> [].
Proof. repeat split. discriminate. Qed.

(** C3 as stated fails. A run without tiles has nothing left to do from the
    start, its [lengthSaved] equals [lengthToBeSaved], and the all-saved
    event is not fired. And when the count of the recount is rejected, the
    event has been fired and the recount started, but no storage-size event
    follows. *)
Lemma all_saved_never_or_uncounted :
  let c1 := Sample.none_started.1 in
  let e1 := Sample.none_started.2 in
  let e1' := Sample.fresh_started.2 in
  let c' := Sample.fresh_uncounted.1 in
  let e' := Sample.fresh_uncounted.2 in
  (_saveTiles Sample.none = (Returned, c1, e1) /\
   pending c1 = [] /\
   lengthSaved (status c1) = lengthToBeSaved (status c1) /\
   fired "saveend" e1 = []) /\
  (_saveTiles Sample.fresh = (Returned, Sample.fresh_started.1, e1') /\
   run Sample.uncounted Sample.fresh_started.1 = Some (c', e') /\
   length (fired "saveend" (e1' ++ e')) = 1%nat /\
   recounts (e1' ++ e') = 1%nat /\
   fired "storagesize" (e1' ++ e') = [] /\
   pending c' = [] /\ storagesize (status c') = 0).
Proof. repeat split. Qed.

(** C9 as stated fails. On a control with a hook a second request is made
    while the two downloads of the first run are in flight; the hook is
    called, and calls no callback back. The first run goes on: its first
    download is answered and its loader claims the third tile, so that a
    download starts and [lengthLoaded] of the new record is 1. And when the
    second request is made while the dialog of the first is still open, and
    the hook then calls back the callback of the first request, not the one
    of the second, two downloads start. *)
Lemma gate_with_a_run_in_flight :
  let c0 := Sample.asked_running.1 in
  let cr := Sample.asked_again_gate in
  let c1 := Sample.asked_again.1 in
  let c := Sample.asked_again_going_on.1 in
  let e := Sample.asked_again_going_on.2 in
  let c0' := Sample.asked_started.1 in
  let c1' := Sample.asked_twice.1 in
  let e' := Sample.asked_twice_first.2 in
  (confirm (options c0) = true /\
   _saveTiles_reset c0 = (inr 2%nat, cr, []) /\
   _saveTiles_confirm 2 cr = (tt, c1, [call_confirm (status cr)]) /\
   lengthLoaded (status c1) = 0 /\
   (ClickSave ∉ Sample.going_on) /\
   (forall i, ProceedSave i ∉ Sample.going_on) /\
   run Sample.going_on c1 = Some (c, e) /\
   fetched e = ["z15"] /\ fetched e <> [] /\
   lengthLoaded (status c) = 1 /\ lengthLoaded (status c) <> 0) /\
  (settled c0' /\
   _saveTiles c0' = (Returned, c1', Sample.asked_twice.2) /\
   pending c1' = [ConfirmingSave 1; ConfirmingSave 2] /\
   _tilesforSave (status c1') = 2%nat /\
   run [ProceedSave 0] c1' = Some Sample.asked_twice_first /\
   fetched e' = ["z13"; "z14"] /\ fetched e' <> []).
Proof.
  intros c0 cr c1 c e c0' c1' e'. split.
  - split; [reflexivity|]. split; [reflexivity|]. split; [reflexivity|].
    split; [reflexivity|]. split; [no_click|]. split; [intros i; no_click|].
    split; [reflexivity|]. split; [reflexivity|]. split; [discriminate|].
    split; [reflexivity|discriminate].
  - split; [reflexivity|]. split; [reflexivity|]. split; [reflexivity|].
    split; [reflexivity|]. split; [reflexivity|]. split; [reflexivity|discriminate].
Qed.

(** C4 as stated fails. For the levels 7 and 5, in this order, the tile of
    level 7 comes first in the work list: the levels are not taken in
    ascending order. *)
Lemma levels_in_the_order_listed :
  let cr := Sample.seven_five_gate in
  let latlngBounds := Leaflet.getBounds (_map Sample.seven_five) in
  _saveTiles_reset Sample.seven_five = (inr 1%nat, cr, []) /\
  TileManager.z <$> deref cr 1 = [7; 5] /\
  deref cr 1
  <> tilesAt Sample.seven_five latlngBounds 5 ++ tilesAt Sample.seven_five latlngBounds 7.
Proof. repeat split. discriminate. Qed.

(** ** Beyond the claims, on the small map *)

(** The three tiles to the end: three per-tile-loaded events and three
    per-tile-saved events. *)
Lemma progress_events_witness :
  let e1 := Sample.fresh_started.2 in
  let c := Sample.fresh_done.1 in
  let e := Sample.fresh_done.2 in
  (ClickSave ∉ Sample.to_the_end) /\
  lengthLoaded (status c) = 3 /\
  lengthLoaded (status c) = Z.of_nat (length (fired "loadtileend" (e1 ++ e))) /\
  lengthSaved (status c) = Z.of_nat (length (fired "savetileend" (e1 ++ e))) /\
  length (saved_tiles (e1 ++ e)) = length (fired "loadtileend" (e1 ++ e)).
Proof.
  intros e1 c e.
  assert (ClickSave ∉ Sample.to_the_end) as Hls by no_click.
  split; [exact Hls|]. split; [reflexivity|].
  exact (progress_events Sample.fresh Sample.fresh_started.1 e1 Sample.to_the_end c e
           eq_refl Hls eq_refl).
Defined.

(** The three tiles to the end: the all-loaded event is fired once. *)
Lemma all_loaded_once_witness :
  let e1 := Sample.fresh_started.2 in
  let c := Sample.fresh_done.1 in
  let e := Sample.fresh_done.2 in
  (ClickSave ∉ Sample.to_the_end) /\
  all_loaded (status c) = 1 /\
  Z.of_nat (length (fired "loadend" (e1 ++ e))) = all_loaded (status c) /\
  (length (fired "loadend" (e1 ++ e)) <= 1)%nat.
Proof.
  intros e1 c e.
  assert (ClickSave ∉ Sample.to_the_end) as Hls by no_click.
  split; [exact Hls|]. split; [reflexivity|].
  pose proof (all_loaded_once Sample.fresh Sample.fresh_started.1 e1 Sample.to_the_end c e
                eq_refl Hls eq_refl) as H.
  split; [exact (proj1 H)|exact (proj1 (proj2 H))].
Defined.

(** The download of the first of three tiles is rejected at once: the two
    others are loaded and saved, and the run ends at two of three. *)
Lemma rejected_download_stalls_witness :
  let c1 := Sample.three_started.1 in
  let e1 := Sample.three_started.2 in
  let c := Sample.three_download_rejected.1 in
  let e := Sample.three_download_rejected.2 in
  settled Sample.three /\
  pending c1 !! 0%nat = Some (Downloading 1 (Sample.tile 13)) /\
  (ClickSave ∉ Sample.after_download_rejected) /\
  own_callbacks (_tilesforSave (status c1)) Sample.download_rejected c1 = true /\
  pending c = [] /\ lengthLoaded (status c) = 2 /\
  lengthSaved (status c) <= lengthLoaded (status c) < lengthToBeSaved (status c) /\
  fired "loadend" (e1 ++ [] ++ e) = [] /\
  fired "saveend" (e1 ++ [] ++ e) = [].
Proof.
  intros c1 e1 c e.
  assert (settled Sample.three) as Hq by reflexivity.
  assert (ClickSave ∉ @nil label) as Hnil by apply not_elem_of_nil.
  assert (ClickSave ∉ Sample.after_download_rejected) as Hls by no_click.
  assert (own_callbacks (_tilesforSave (status c1)) Sample.download_rejected c1 = true)
    as Hown by reflexivity.
  split; [exact Hq|]. split; [reflexivity|]. split; [exact Hls|]. split; [exact Hown|].
  split; [reflexivity|]. split; [reflexivity|].
  exact (proj2 (rejected_download_stalls Sample.three c1 e1 [] c1 [] 0%nat 1%nat
                  (Sample.tile 13) Sample.after_download_rejected c e
                  Hq eq_refl Hnil eq_refl eq_refl eq_refl Hls Hown eq_refl)).
Defined.

(** The save of the first of three tiles is rejected: the three tiles are
    loaded, two are saved. *)
Lemma rejected_save_stalls_witness :
  let c1 := Sample.three_started.1 in
  let e1 := Sample.three_started.2 in
  let c2 := Sample.three_first_loaded.1 in
  let e2 := Sample.three_first_loaded.2 in
  let c := Sample.three_save_rejected.1 in
  let e := Sample.three_save_rejected.2 in
  settled Sample.three /\
  pending c2 !! 1%nat = Some (Saving (Sample.tile 13) Sample.blob) /\
  (ClickSave ∉ Sample.after_save_rejected) /\
  own_callbacks (_tilesforSave (status c1)) Sample.save_rejected c2 = true /\
  pending c = [] /\ lengthLoaded (status c) = 3 /\ lengthSaved (status c) = 2 /\
  lengthSaved (status c) < lengthToBeSaved (status c) /\
  fired "saveend" (e1 ++ e2 ++ e) = [].
Proof.
  intros c1 e1 c2 e2 c e.
  assert (settled Sample.three) as Hq by reflexivity.
  assert (ClickSave ∉ Sample.first_loaded) as Hls by no_click.
  assert (ClickSave ∉ Sample.after_save_rejected) as Hls' by no_click.
  assert (own_callbacks (_tilesforSave (status c1)) Sample.save_rejected c2 = true)
    as Hown by reflexivity.
  split; [exact Hq|]. split; [reflexivity|]. split; [exact Hls'|]. split; [exact Hown|].
  split; [reflexivity|]. split; [reflexivity|]. split; [reflexivity|].
  exact (proj2 (rejected_save_stalls Sample.three c1 e1 Sample.first_loaded c2 e2 1%nat
                  (Sample.tile 13) Sample.blob Sample.after_save_rejected c e
                  Hq eq_refl Hls eq_refl eq_refl eq_refl Hls' Hown eq_refl)).
Defined.


(** Three tiles, two loaders: two downloads are in flight again once the
    first tile is saved and the third claimed. *)
Lemma loops_bounded_witness :
  let c1 := Sample.three_started.1 in
  let c := Sample.three_first_saved.1 in
  settled Sample.three /\ (ClickSave ∉ Sample.first_saved) /\
  (forall i, ProceedSave i ∉ Sample.first_saved) /\
  loops c1 = 2 /\ loops c = 2 /\
  Z.min (lengthToBeSaved (status c1)) (parallel (options Sample.three)) = 2 /\
  loops c <= Z.max 0 (Z.min (lengthToBeSaved (status c1)) (parallel (options Sample.three))).
Proof.
  intros c1 c.
  assert (settled Sample.three) as Hq by reflexivity.
  assert (ClickSave ∉ Sample.first_saved) as Hls by no_click.
  assert (forall i, ProceedSave i ∉ Sample.first_saved) as Hnone by (intros i; no_click).
  split; [exact Hq|]. split; [exact Hls|]. split; [exact Hnone|].
  split; [reflexivity|]. split; [reflexivity|]. split; [reflexivity|].
  exact (proj2 (loops_bounded Sample.three c1 Sample.three_started.2 Sample.first_saved c
                  Sample.three_first_saved.2 Hq eq_refl eq_refl Hls Hnone eq_refl)).
Defined.

(** Ten tiles counted: a tile is saved and the count stays at ten. *)
Lemma cached_count_stays_witness :
  let c := Sample.one_clicked.1 in
  let e := Sample.one_clicked.2 in
  (ClickRemove ∉ Sample.one_click) /\
  length (saved_tiles e) = 1%nat /\ length (fired "saveend" e) = 1%nat /\
  storagesize (status c) = 10 /\
  storagesize (status c) = storagesize (status Sample.one) /\
  recounts e = 0%nat /\ fired "storagesize" e = [].
Proof.
  intros c e.
  assert (storagesize (status Sample.one) <> 0) as Hsize by (cbn; lia).
  assert (ClickRemove ∉ Sample.one_click) as Hls by no_click.
  split; [exact Hls|]. split; [reflexivity|]. split; [reflexivity|]. split; [reflexivity|].
  exact (cached_count_stays Sample.one_click Sample.one c e Hsize eq_refl Hls eq_refl).
Defined.

(** Saving what is seen at zoom 20 with a [maxZoom] of 19. *)
Lemma beyond_maxZoom_witness :
  Leaflet.getZoom (_map Sample.seen20) = 20 /\ maxZoom (options Sample.seen20) = 19 /\
  requestedZoomlevels Sample.seen20 = inr [] /\
  exists c1,
    _saveTiles Sample.seen20 = (Returned, c1, [fire "savestart" (Some (status c1))]) /\
    lengthToBeSaved (status c1) = 0 /\
    deref c1 (_tilesforSave (status c1)) = [].
Proof.
  assert (5 <= Leaflet.getZoom (_map Sample.seen20)) as Hmin by (cbn; lia).
  assert (maxZoom (options Sample.seen20) < Leaflet.getZoom (_map Sample.seen20))
    as Hmax by (cbn; lia).
  split; [reflexivity|]. split; [reflexivity|].
  destruct (beyond_maxZoom Sample.seen20 eq_refl Hmin Hmax)
    as (Hz & c1 & Hsave & Hn & Hd & _).
  split; [exact Hz|]. exists c1. split; [exact Hsave|]. split; [exact Hn|exact Hd].
Defined.

(** No level, no tile: the tiles stored are removed, and nothing else
    happens. *)
Lemma empty_run_witness :
  let c1 := Sample.none_started.1 in
  let e1 := Sample.none_started.2 in
  let c := Sample.none_removed.1 in
  let e := Sample.none_removed.2 in
  settled Sample.none /\ (ClickSave ∉ Sample.removing_now) /\
  own_callbacks (_tilesforSave (status c1)) Sample.removing_now c1 = true /\
  lengthToBeSaved (status c1) = 0 /\ length (fired "savestart" (e1 ++ e)) = 1%nat /\
  fetched (e1 ++ e) = [] /\
  saved_tiles (e1 ++ e) = [] /\
  fired "loadtileend" (e1 ++ e) = [] /\
  fired "loadend" (e1 ++ e) = [] /\
  fired "savetileend" (e1 ++ e) = [] /\
  fired "saveend" (e1 ++ e) = [] /\
  lengthLoaded (status c) = 0 /\ lengthSaved (status c) = 0 /\
  inflight is_Downloading (pending c) = 0 /\ inflight is_Saving (pending c) = 0.
Proof.
  intros c1 e1 c e.
  assert (settled Sample.none) as Hq by reflexivity.
  assert (ClickSave ∉ Sample.removing_now) as Hls by no_click.
  assert (own_callbacks (_tilesforSave (status c1)) Sample.removing_now c1 = true)
    as Hown by reflexivity.
  split; [exact Hq|]. split; [exact Hls|]. split; [exact Hown|].
  split; [reflexivity|]. split; [reflexivity|].
  exact (empty_run Sample.none c1 e1 Sample.removing_now c e
           Hq eq_refl eq_refl Hls Hown eq_refl).
Defined.

(** From the constructor to the end of a run of three tiles. *)
Lemma downloads_accounted_witness :
  let c := Sample.built_done.1 in
  let e := Sample.built_done.2 in
  (forall i, Reject i ∉ Sample.from_new) /\
  fetched e = ["z13"; "z14"; "z15"] /\
  (forall tile, tile ∈ saved_tiles e -> TileManager.url tile ∈ fetched e) /\
  Z.of_nat (length (saved_tiles e)) + inflight is_Downloading (pending c)
    = Z.of_nat (length (fetched e)).
Proof.
  intros c e.
  assert (forall i, Reject i ∉ Sample.from_new) as Hrej by (intros i; no_click).
  split; [exact Hrej|]. split; [reflexivity|].
  pose proof (downloads_accounted (Sample.map_at 13) Sample.layer
                (Sample.opts 2 (Some [13; 14; 15])) Sample.built.1 Sample.built.2
                Sample.from_new c e eq_refl eq_refl) as H.
  split; [exact (proj1 H)|exact (proj2 (proj2 H) Hrej)].
Defined.

(** A second request while the two downloads of the first are in flight: the
    download of level 13 is still waiting, and its answer counts into the
    new record. *)
Lemma request_cancels_nothing_witness :
  let c := Sample.three_started.1 in
  let c1 := Sample.three_again.1 in
  pending c !! 0%nat = Some (Downloading 1 (Sample.tile 13)) /\
  _tilesforSave (status c1) = 2%nat /\ lengthLoaded (status c1) = 0 /\
  pending c1 !! 0%nat = Some (Downloading 1 (Sample.tile 13)) /\
  deref c1 1 = deref c 1 /\
  exists c2 e2,
    step (Fulfil 0 (VBlob Sample.blob)) c1 = Some (c2, e2) /\
    saved_tiles e2 = [Sample.tile 13] /\
    lengthLoaded (status c2) = lengthLoaded (status c1) + 1 /\
    lengthToBeSaved (status c2) = lengthToBeSaved (status c1) /\
    _tilesforSave (status c2) = _tilesforSave (status c1).
Proof.
  intros c c1.
  assert (pending c !! 0%nat = Some (Downloading 1 (Sample.tile 13))) as Hi by reflexivity.
  assert (1 < length (heap c))%nat as Hr by (cbn; lia).
  split; [exact Hi|]. split; [reflexivity|]. split; [reflexivity|].
  pose proof (request_cancels_nothing c Returned c1 Sample.three_again.2 eq_refl) as H.
  split; [exact (proj1 H _ _ Hi)|].
  split; [exact (proj1 (proj2 H) _ Hr)|].
  exact (proj2 (proj2 H) _ _ _ Sample.blob Hi).
Defined.

(** Three tiles and [parallel] at 0: the tiles stored are removed, the work
    list stays. *)
Lemma no_loader_allowed_witness :
  let c1 := Sample.unhurried_started.1 in
  let e1 := Sample.unhurried_started.2 in
  let c := Sample.unhurried_removed.1 in
  let e := Sample.unhurried_removed.2 in
  settled Sample.unhurried /\ (ClickSave ∉ Sample.removing_now) /\
  (forall i, ProceedSave i ∉ Sample.removing_now) /\
  parallel (options Sample.unhurried) = 0 /\
  TileManager.url <$> deref c 1 = ["z13"; "z14"; "z15"] /\
  exists levels,
    requestedZoomlevels Sample.unhurried = inr levels /\
    fired "savestart" (e1 ++ e) = [Some (status c1)] /\
    fetched (e1 ++ e) = [] /\
    saved_tiles (e1 ++ e) = [] /\
    deref c (_tilesforSave (status c)) = collectTiles Sample.unhurried levels /\
    lengthToBeSaved (status c) = Z.of_nat (length (collectTiles Sample.unhurried levels)) /\
    lengthLoaded (status c) = 0 /\ lengthSaved (status c) = 0 /\
    fired "loadtileend" (e1 ++ e) = [] /\
    fired "loadend" (e1 ++ e) = [] /\
    fired "savetileend" (e1 ++ e) = [] /\
    fired "saveend" (e1 ++ e) = [].
Proof.
  intros c1 e1 c e.
  assert (settled Sample.unhurried) as Hq by reflexivity.
  assert (ClickSave ∉ Sample.removing_now) as Hls by no_click.
  assert (forall i, ProceedSave i ∉ Sample.removing_now) as Hnone by (intros i; no_click).
  assert (parallel (options Sample.unhurried) <= 0) as Hpar by (cbn; lia).
  split; [exact Hq|]. split; [exact Hls|]. split; [exact Hnone|].
  split; [reflexivity|]. split; [reflexivity|].
  exact (no_loader_allowed Sample.unhurried c1 e1 Sample.removing_now c e
           Hq eq_refl Hpar eq_refl Hls Hnone eq_refl).
Defined.

(** Two calls with nothing counted yet: two counts under way. *)
Lemma counts_not_shared_witness :
  storagesize (status Sample.empty) = 0 /\
  exists c',
    run [CallSetStorageSize; CallSetStorageSize] Sample.empty
      = Some (c', [getStorageLength; getStorageLength]) /\
    pending c' = pending Sample.empty ++ [Counting; Counting] /\
    status c' = status Sample.empty.
Proof.
  split; [reflexivity|].
  exact (counts_not_shared 2 Sample.empty eq_refl).
Defined.
